(** * Stardom music-career simulator: the simulation core in Rocq

    A shallow embedding of the game logic of [App.tsx] (state model, time
    advancement, economic formulas, action handlers), of the oracle
    fall-backs of [services/geminiService.ts] and of the data model of
    [types.ts], followed by the properties proved about them.

    Conventions of the embedding.
    - A JavaScript [number] that the program only ever fills with integers
      (fans, fame, follower counts, streams, quality, skills) is a [Z]; a
      [number] that holds fractions (money, revenue, rates, the results of
      [Math.random()]) is a [Q].  Arithmetic is exact: the rounding of IEEE
      doubles is not modelled.
    - [Math.floor] is [Qfloor], [Math.min]/[Math.max] are [Z.min]/[Z.max]
      or [Qmin]/[Qmax], [Math.pow (x, 2)] is [x ^ 2].
    - [Math.random()] and every answer of the generative service are
      inputs of the function that consumes them.
    - A handler reads the React closure [gameState]; a functional update
      [setGameState (prev => ...)] reads the state [prev] that is current
      when the update is applied.  Both are arguments where the source
      distinguishes them.
    - [new Date (y, m, 1)] is a year and a month (0 = January); the day of
      the month never changes. *)

From Stdlib Require Import ZArith QArith Qabs Qround Qminmax Lqa Lia.
From Stdlib Require Import List String DecimalString Bool.
Import ListNotations.

Open Scope Z_scope.

(** ** Data model ([types.ts]) *)

Inductive Genre : Set :=
  POP | HIPHOP | ROCK | RNB | ELECTRONIC | COUNTRY | JAZZ | INDIE.

Inductive SocialPlatform : Set :=
  Instagram | TikTok | YouTube | Spotify | AppleMusic.

Definition SocialPlatform_eqb (a b : SocialPlatform) : bool :=
  match a, b with
  | Instagram, Instagram | TikTok, TikTok | YouTube, YouTube
  | Spotify, Spotify | AppleMusic, AppleMusic => true
  | _, _ => false
  end.

(** The platform's name as it is interpolated into template strings. *)
Definition platformName (p : SocialPlatform) : string :=
  match p with
  | Instagram => "Instagram" | TikTok => "TikTok" | YouTube => "YouTube"
  | Spotify => "Spotify" | AppleMusic => "AppleMusic"
  end.

Record Date : Set := mkDate { getFullYear : Z; getMonth : Z }.

(** [d.setMonth (d.getMonth () + 1)]: month 12 is January of the next year. *)
Definition nextMonth (d : Date) : Date :=
  if getMonth d + 1 >? 11
  then mkDate (getFullYear d + 1) (getMonth d + 1 - 12)
  else mkDate (getFullYear d) (getMonth d + 1).

Record Comment : Set := mkComment { user : string; text : string }.

Record Impact : Set := mkImpact {
  impact_fans : Z;
  impact_fame : Z;
  streamsBoost : option Z
}.

Record SocialPost : Set := mkSocialPost {
  post_id : string;
  platform : SocialPlatform;
  content : string;
  post_type : string;
  likes : Z;
  comments : list Comment;
  timestamp : Z;
  impact : Impact;
  videoTitle : option string;
  videoDescription : option string;
  thumbnailUrl : option string
}.

Record SponsoredOffer : Set := mkSponsoredOffer {
  offer_id : string;
  brand : string;
  payout : Q;
  requirement : string;
  charismaPenalty : Z
}.

Record Label : Set := mkLabel {
  label_id : string;
  label_name : string;
  prestige : Z;
  fameRequirement : Z;
  signingBonus : Q;
  revenueSplit : Z;
  label_description : string;
  logo : string
}.

Record Song : Set := mkSong {
  song_id : string;
  title : string;
  song_genre : Genre;
  quality : Z;
  releaseDate : Date;
  streams : Z;
  revenue : Q;
  lyrics : option string;
  chartPosition : option Z;
  featuredArtist : option string;
  isMusicVideo : option bool;
  isMastered : option bool
}.

Record Award : Set := mkAward {
  award_id : string;
  award_year : Z;
  category : string;
  reason : string
}.

Record Followers : Set := mkFollowers {
  fInstagram : Z;
  fTikTok : Z;
  fYouTube : Z;
  fSpotify : Z;
  fAppleMusic : Z
}.

Record Skills : Set := mkSkills {
  songwriting : Z;
  vocals : Z;
  production : Z;
  charisma : Z
}.

Record Player : Set := mkPlayer {
  name : string;
  stageName : string;
  genre : Genre;
  fans : Z;
  fame : Z;
  money : Q;
  followers : Followers;
  skills : Skills;
  labelId : option string
}.

Record HistoryPoint : Set := mkHistoryPoint { hist_month : Z; hist_fans : Z }.

Record GameState : Set := mkGameState {
  player : Player;
  currentDate : Date;
  currentWeek : Z;
  songs : list Song;
  unreleasedSongs : list Song;
  awards : list Award;
  news : list string;
  socialPosts : list SocialPost;
  trendingTopics : list string;
  activeOffers : list SponsoredOffer;
  history : list HistoryPoint
}.

(** [followers[p]] and [{ ...followers, [p]: v }]. *)
Definition getFollowers (f : Followers) (p : SocialPlatform) : Z :=
  match p with
  | Instagram => fInstagram f | TikTok => fTikTok f | YouTube => fYouTube f
  | Spotify => fSpotify f | AppleMusic => fAppleMusic f
  end.

Definition setFollowers (f : Followers) (p : SocialPlatform) (v : Z) : Followers :=
  match p with
  | Instagram => mkFollowers v (fTikTok f) (fYouTube f) (fSpotify f) (fAppleMusic f)
  | TikTok => mkFollowers (fInstagram f) v (fYouTube f) (fSpotify f) (fAppleMusic f)
  | YouTube => mkFollowers (fInstagram f) (fTikTok f) v (fSpotify f) (fAppleMusic f)
  | Spotify => mkFollowers (fInstagram f) (fTikTok f) (fYouTube f) v (fAppleMusic f)
  | AppleMusic => mkFollowers (fInstagram f) (fTikTok f) (fYouTube f) (fSpotify f) v
  end.

(** Object spreads [{ ...x, field: v }], one per field that is overwritten. *)
Definition withCharisma (k : Skills) (v : Z) : Skills :=
  mkSkills (songwriting k) (vocals k) (production k) v.

Definition withSongwriting (k : Skills) (v : Z) : Skills :=
  mkSkills v (vocals k) (production k) (charisma k).

Definition withFans (p : Player) (v : Z) : Player :=
  mkPlayer (name p) (stageName p) (genre p) v (fame p) (money p)
           (followers p) (skills p) (labelId p).

Definition withFame (p : Player) (v : Z) : Player :=
  mkPlayer (name p) (stageName p) (genre p) (fans p) v (money p)
           (followers p) (skills p) (labelId p).

Definition withMoney (p : Player) (v : Q) : Player :=
  mkPlayer (name p) (stageName p) (genre p) (fans p) (fame p) v
           (followers p) (skills p) (labelId p).

Definition withFollowers (p : Player) (v : Followers) : Player :=
  mkPlayer (name p) (stageName p) (genre p) (fans p) (fame p) (money p)
           v (skills p) (labelId p).

Definition withSkills (p : Player) (v : Skills) : Player :=
  mkPlayer (name p) (stageName p) (genre p) (fans p) (fame p) (money p)
           (followers p) v (labelId p).

Definition withPlayer (s : GameState) (p : Player) : GameState :=
  mkGameState p (currentDate s) (currentWeek s) (songs s) (unreleasedSongs s)
              (awards s) (news s) (socialPosts s) (trendingTopics s)
              (activeOffers s) (history s).

(** [xs.slice (0, n)]. *)
Definition slice0 {A : Type} (n : nat) (xs : list A) : list A := firstn n xs.

(** [xs.map ((x, i) => f (i, x))], the index counted from [i]. *)
Fixpoint mapi_from {A B : Type} (f : nat -> A -> B) (i : nat) (xs : list A) : list B :=
  match xs with
  | [] => []
  | x :: r => f i x :: mapi_from f (S i) r
  end.

Definition sumZ (xs : list Z) : Z := fold_left Z.add xs 0.

(** ** Constants of [constants.ts]

    The tables [LABELS] and [REAL_ARTISTS_DATA] are imported by [App.tsx]
    from a file that is not part of the sources at hand; every function
    that consults them takes the table as an argument. *)

Record RealArtist : Set := mkRealArtist {
  artist_name : string;
  artist_fame : Z;
  artist_cost : Z
}.

Definition SESSION_NOTES_REQUIRED : nat := 5.

(** ** Economic formulas ([App.tsx]) *)

Open Scope Q_scope.

(** [getStreamRate]. *)
Definition getStreamRate (fans : Z) : Q :=
  let baseRate := 750 / 1500 in
  if (fans <? 1000000)%Z then baseRate
  else
    let bonus := (inject_Z fans - 1000000) * 0.0000001 in
    baseRate + bonus.

Close Scope Q_scope.

(** ** The generative service ([services/geminiService.ts])

    Every call awaits the service inside [try]/[catch].  What the service
    did is an input: it answered with a text that parsed to [a], it
    answered without text, or the call threw. *)

Inductive Reply (A : Type) : Type :=
  | Answered (a : A)
  | NoText
  | Failed.
Arguments Answered {A} a.
Arguments NoText {A}.
Arguments Failed {A}.

Definition FALLBACK_TOPICS : list string :=
  ["#MusicVibes"; "#Stardom"; "#NewArtist"; "#ViralBeat"; "#StudioLife"]%string.

(** [generateTrendingTopics]. *)
Definition generateTrendingTopics (r : Reply (list string)) : list string :=
  match r with
  | Answered topics => topics
  | NoText => FALLBACK_TOPICS
  | Failed => FALLBACK_TOPICS
  end.

Definition FALLBACK_OFFER : SponsoredOffer :=
  mkSponsoredOffer "fallback-offer" "GlowWater" 5000
    "Post a photo drinking GlowWater with the tag #StayGlowing" 3.

(** [generateSponsoredOffer]: the parsed answer gets a fresh random id
    [rid]; both fall-back paths return the same fixed offer, id included. *)
Definition generateSponsoredOffer (r : Reply SponsoredOffer) (rid : string)
  : SponsoredOffer :=
  match r with
  | Answered o =>
      mkSponsoredOffer rid (brand o) (payout o) (requirement o) (charismaPenalty o)
  | NoText => FALLBACK_OFFER
  | Failed => FALLBACK_OFFER
  end.

Record SongImpact : Set := mkSongImpact { fanGain : Z; reception : string }.

(** [calculateSongImpact]: an answer without text throws inside the [try]
    and lands in the same [catch] as a failed call. *)
Definition calculateSongImpact (r : Reply SongImpact) (quality currentFans : Z)
  : SongImpact :=
  let fallback :=
    let fallbackGain :=
      Qfloor ((inject_Z quality / 100) * (inject_Z currentFans * 0.2) + 500)%Q in
    mkSongImpact fallbackGain
      "The track is getting steady rotation on indie playlists." in
  match r with
  | Answered i => i
  | NoText => fallback
  | Failed => fallback
  end.

(** [generateSocialEngagement]. *)
Definition generateSocialEngagement (r : Reply (list Comment)) : list Comment :=
  match r with
  | Answered cs => cs
  | NoText => []
  | Failed =>
      [ mkComment "fan_zone" "We love you! ❤️";
        mkComment "music_critic" "Interesting choice...";
        mkComment "stan_account" "STREAM THE NEW SINGLE!" ]
  end.

(** [generateIndustryNews]: [response.text || fallback]. *)
Definition generateIndustryNews (r : Reply string) (playerName : string) : string :=
  let fallback := (playerName ++ " is making waves in the industry!")%string in
  match r with
  | Answered t => if String.eqb t EmptyString then fallback else t
  | NoText => fallback
  | Failed => fallback
  end.

(** [generateSongLyrics]. *)
Definition generateSongLyrics (r : Reply string) : string :=
  let fallback := "The rhythm moves me, the lyrics flow free..."%string in
  match r with
  | Answered t => if String.eqb t EmptyString then fallback else t
  | NoText => fallback
  | Failed => fallback
  end.

(** [generateThumbnail]: a data URL around the image data of the answer,
    or [null]. *)
Definition generateThumbnail (r : Reply string) : option string :=
  match r with
  | Answered data => Some ("data:image/png;base64," ++ data)%string
  | NoText => None
  | Failed => None
  end.

Inductive BonusType : Set := BonusFans | BonusCharisma | BonusFame | BonusMoney.

Record FanOption : Set := mkFanOption {
  fo_label : string;
  fo_result : string;
  bonusType : BonusType;
  bonusValue : Z
}.

Record FanInteraction : Set := mkFanInteraction {
  fi_username : string;
  fi_message : string;
  fi_options : list FanOption
}.

(** [generateFanInteraction]. *)
Definition generateFanInteraction (r : Reply FanInteraction) : option FanInteraction :=
  match r with
  | Answered i => Some i
  | NoText => None
  | Failed => None
  end.

(** ** Time advancement ([App.tsx]) *)

Definition Qltb (x y : Q) : bool := negb (Qle_bool y x).

(** [x || d] on numbers: [0] is falsy. *)
Definition orElse (x d : Z) : Z := if x =? 0 then d else x.

(** Stable sort with a comparator, as [Array.prototype.sort] is. *)
Fixpoint insertBy {A : Type} (cmp : A -> A -> Z) (x : A) (l : list A) : list A :=
  match l with
  | [] => [x]
  | y :: r => if cmp x y <=? 0 then x :: y :: r else y :: insertBy cmp x r
  end.

Definition sortBy {A : Type} (cmp : A -> A -> Z) (l : list A) : list A :=
  fold_right (insertBy cmp) [] l.

Definition yearString (y : Z) : string :=
  NilZero.string_of_int (Z.to_int y).

(** [runAwardsSeason]; [sfx1] and [sfx2] are the random id suffixes. *)
Definition runAwardsSeason (sfx1 sfx2 : string) (state : GameState) : list Award :=
  let wonAwards : list Award := [] in
  let year := getFullYear (currentDate state) in
  let wonAwards :=
    if (fans (player state) >? 1000000)
       && (3 <=? Z.of_nat (List.length (songs state)))
    then
      let bestSong :=
        hd_error (sortBy (fun a b => quality b - quality a) (songs state)) in
      match bestSong with
      | Some best =>
          if quality best >? 85
          then wonAwards ++
               [ mkAward ("aoy-" ++ yearString year ++ "-" ++ sfx1) year
                   "Album of the Year"
                   "Masterpiece of production and songwriting." ]
          else wonAwards
      | None => wonAwards
      end
    else wonAwards in
  let wonAwards :=
    if fame (player state) >? 5000000
    then wonAwards ++
         [ mkAward ("boty-" ++ yearString year ++ "-" ++ sfx2) year
             "Best Artist"
             "Global impact and cultural domination." ]
    else wonAwards in
  wonAwards.

(** The weekly stream gain of one released song; [rnd] is its
    [Math.random()]. *)
Definition weeklyGain (p : Player) (song : Song) (rnd : Q) : Z :=
  let qualityFactor := ((inject_Z (quality song) / 100) ^ 2)%Q in
  let audienceFactor :=
    (inject_Z (fans p) * 0.05 + inject_Z (fame p) * 0.01)%Q in
  Qfloor (audienceFactor * qualityFactor * (0.8 + rnd * 0.4))%Q.

Definition finalWeeklyGain (p : Player) (song : Song) (rnd : Q) : Z :=
  Z.max 1 (weeklyGain p song rnd).

Definition withStreams (s : Song) (newStreams : Z) (newRevenue : Q) : Song :=
  mkSong (song_id s) (title s) (song_genre s) (quality s) (releaseDate s)
         newStreams newRevenue (lyrics s) (chartPosition s) (featuredArtist s)
         (isMusicVideo s) (isMastered s).

(** The callback of [prev.songs.map] in [advanceTime]. *)
Definition updateSong (p : Player) (currentRate : Q) (rnd : Q) (song : Song) : Song :=
  let newTotalStreams := streams song + finalWeeklyGain p song rnd in
  withStreams song newTotalStreams (inject_Z newTotalStreams * currentRate)%Q.

Definition updateSongs (p : Player) (currentRate : Q) (rolls : nat -> Q)
                       (l : list Song) : list Song :=
  mapi_from (fun i song => updateSong p currentRate (rolls i) song) 0 l.

(** [updatedSongs.reduce ((acc, song) => acc + delta, 0)] with
    [oldSong = prev.songs.find (s => s.id === song.id)]. *)
Definition streamDelta (prevSongs : list Song) (song : Song) : Z :=
  let oldSong := find (fun s => String.eqb (song_id s) (song_id song)) prevSongs in
  streams song - match oldSong with
                 | Some o => orElse (streams o) 0
                 | None => 0
                 end.

Definition monthlyActivity (prevSongs updatedSongs : list Song) : Z :=
  fold_left (fun acc song => acc + streamDelta prevSongs song) updatedSongs 0.

(** [(label?.revenueSplit || 100) / 100] with
    [label = LABELS.find (l => l.id === prev.player.labelId)]. *)
Definition findLabel (LABELS : list Label) (lid : option string) : option Label :=
  find (fun l => match lid with
                 | Some i => String.eqb (label_id l) i
                 | None => false
                 end) LABELS.

Definition labelShare (LABELS : list Label) (lid : option string) : Q :=
  (inject_Z (orElse (match findLabel LABELS lid with
                     | Some l => revenueSplit l
                     | None => 0
                     end) 100) / 100)%Q.

Inductive RandomEvent : Set := TwitterFeud | ViralTikTokSound | GhostwriterLeak.

Definition RANDOM_EVENTS : list RandomEvent :=
  [TwitterFeud; ViralTikTokSound; GhostwriterLeak].

(** What one call of [advanceTime] draws and is told. *)
Record AdvanceEnv : Type := mkAdvanceEnv {
  streamRoll : nat -> Q;
  trendingReply : Reply (list string);
  offerGate : Q;
  offerReply : Reply SponsoredOffer;
  offerRid : string;
  awardSfx1 : string;
  awardSfx2 : string;
  eventGate : Q;
  eventPick : Q
}.

(** What one call of [advanceTime] leaves behind: the committed state and
    the interface effects ([setPendingAwards], [setActiveEvent], the payout
    passed to [notify]). *)
Record AdvanceResult : Type := mkAdvanceResult {
  nextState : GameState;
  shownAwards : option (list Award);
  shownEvent : option RandomEvent;
  payoutNotice : option Q
}.

Definition winnerHeadline (p : Player) (a : Award) : string :=
  ("WINNER: " ++ stageName p ++ " wins " ++ category a ++ "!")%string.

(** [advanceTime].  [pendingAwards] is the interface state captured by the
    callback. *)
Definition advanceTime (LABELS : list Label) (pendingAwards : option (list Award))
                       (e : AdvanceEnv) (prev : GameState) : AdvanceResult :=
  let nextWeek := currentWeek prev + 1 in
  let nextDate := currentDate prev in
  let newPlayerState := player prev in
  let newAwards := awards prev in
  let newNews := news prev in
  let newHistory := history prev in
  let newTrending := trendingTopics prev in
  let newOffers := activeOffers prev in
  let currentRate := getStreamRate (fans (player prev)) in
  let updatedSongs := updateSongs (player prev) currentRate (streamRoll e) (songs prev) in
  let commit nextDate nextWeek newPlayerState newAwards newNews newHistory
             newTrending newOffers :=
    mkGameState newPlayerState nextDate nextWeek updatedSongs
                (unreleasedSongs prev) newAwards (slice0 15 newNews)
                (socialPosts prev) newTrending newOffers newHistory in
  if nextWeek >? 4 then
    let nextWeek := 1 in
    let oldMonth := getMonth nextDate in
    let nextDate := nextMonth nextDate in
    let newTrending := generateTrendingTopics (trendingReply e) in
    let newOffers :=
      if Qltb (offerGate e) 0.6
      then
        let offer := generateSponsoredOffer (offerReply e) (offerRid e) in
        slice0 3 (offer :: newOffers)
      else newOffers in
    let wonAwards :=
      if oldMonth =? 11
      then runAwardsSeason (awardSfx1 e) (awardSfx2 e) prev
      else [] in
    let won := (oldMonth =? 11) && (0 <? Z.of_nat (List.length wonAwards)) in
    let newAwards := if won then newAwards ++ wonAwards else newAwards in
    let newPlayerState :=
      if won
      then
        let p1 := withFame newPlayerState
                    (fame newPlayerState + Z.of_nat (List.length wonAwards) * 500000) in
        withMoney p1 (money p1 + inject_Z (Z.of_nat (List.length wonAwards) * 100000))%Q
      else newPlayerState in
    let newNews :=
      if won
      then fold_left (fun acc a => winnerHeadline (player prev) a :: acc)
                     wonAwards newNews
      else newNews in
    let monthlyActivity := monthlyActivity (songs prev) updatedSongs in
    let share := labelShare LABELS (labelId (player prev)) in
    let monthlyRoyalties := (inject_Z monthlyActivity * currentRate * share)%Q in
    let newPlayerState :=
      withMoney newPlayerState (money newPlayerState + monthlyRoyalties)%Q in
    let newPlayerState :=
      withFans newPlayerState
        (fans newPlayerState + Qfloor (inject_Z (fans (player prev)) * 0.05)%Q) in
    let f := followers (player prev) in
    let newPlayerState :=
      withFollowers newPlayerState
        (mkFollowers
           (Qfloor (inject_Z (fInstagram f) * 1.05)%Q)
           (Qfloor (inject_Z (fTikTok f) * 1.08)%Q)
           (Qfloor (inject_Z (fYouTube f) * 1.03)%Q)
           (Qfloor (inject_Z (fSpotify f) * 1.04)%Q)
           (Qfloor (inject_Z (fAppleMusic f) * 1.02)%Q)) in
    let newHistory :=
      newHistory ++ [mkHistoryPoint (Z.of_nat (List.length newHistory))
                                    (fans newPlayerState)] in
    let event :=
      if Qltb (eventGate e) 0.45
         && match pendingAwards with None => true | Some _ => false end
      then nth_error RANDOM_EVENTS
             (Z.to_nat (Qfloor (eventPick e
                                * inject_Z (Z.of_nat (List.length RANDOM_EVENTS)))%Q))
      else None in
    mkAdvanceResult
      (commit nextDate nextWeek newPlayerState newAwards newNews newHistory
              newTrending newOffers)
      (if won then Some wonAwards else None)
      event
      (Some monthlyRoyalties)
  else
    let newPlayerState :=
      withFans newPlayerState
        (fans newPlayerState + Qfloor (inject_Z (fans (player prev)) * 0.01)%Q) in
    let f := followers (player prev) in
    let newPlayerState :=
      withFollowers newPlayerState
        (mkFollowers
           (Qfloor (inject_Z (fInstagram f) * 1.01)%Q)
           (Qfloor (inject_Z (fTikTok f) * 1.02)%Q)
           (fYouTube f) (fSpotify f) (fAppleMusic f)) in
    mkAdvanceResult
      (commit nextDate nextWeek newPlayerState newAwards newNews newHistory
              newTrending newOffers)
      None None None.

(** ** Interface state read by the handlers ([App.tsx]) *)

Record DraftForm : Set := mkDraftForm {
  df_title : string;
  df_genre : Genre;
  feature : string;
  useGhostwriter : bool
}.

Record SessionCosts : Set := mkSessionCosts { rent : Z; ghostwriter : Z }.

Record PostDraft : Set := mkPostDraft {
  pd_content : string;
  pd_type : string;
  targetSongId : string;
  pd_videoTitle : string;
  pd_videoDescription : string
}.

(** What a handler does to the career state: it commits a new state, it
    refuses with a notification and commits nothing, or it returns at once. *)
Inductive Outcome : Type :=
  | Committed (s : GameState)
  | Rejected (notification : string)
  | Ignored.

(** The career state after the handler has run on [s]. *)
Definition stateAfter (o : Outcome) (s : GameState) : GameState :=
  match o with
  | Committed s' => s'
  | Rejected _ => s
  | Ignored => s
  end.

Definition dq : string := String (Ascii.ascii_of_nat 34) EmptyString.

Definition nonEmpty (s : string) : bool := negb (String.eqb s EmptyString).

(** [s || undefined] on strings. *)
Definition orUndefined (s : string) : option string :=
  if nonEmpty s then Some s else None.

(** [handleStartGame]: the state of a new career. *)
Definition initialState (playerName stage : string) (g : Genre) : GameState :=
  mkGameState
    (mkPlayer playerName stage g 100 0 5000
       (mkFollowers 50 75 20 10 5) (mkSkills 20 30 10 40) (Some "indie_self"%string))
    (mkDate 2025 0) 0 [] [] []
    ["Fresh start. The path to Gold begins today."%string]
    [] ["#MusicVibes"; "#Stardom"; "#NewArtist"]%string [] [mkHistoryPoint 0 100].

Definition handleStartGame (playerName stage : string) (g : Genre) : Outcome :=
  if negb (nonEmpty playerName) || negb (nonEmpty stage) then Ignored
  else Committed (initialState playerName stage g).

(** *** Random career events *)

Record PlayerUpdate : Set := mkPlayerUpdate {
  up_fans : option Z;
  up_fame : option Z;
  up_skills : option Skills;
  up_followers : option Followers
}.

Inductive EventChoice : Set := FirstOption | SecondOption.

(** [option.effect (s)].playerUpdate for the options of [RANDOM_EVENTS];
    [rnd] is the [Math.random()] of the options that roll. *)
Definition effect (ev : RandomEvent) (c : EventChoice) (rnd : Q) (s : GameState)
  : PlayerUpdate :=
  let p := player s in
  match ev, c with
  | TwitterFeud, FirstOption =>
      mkPlayerUpdate None None
        (Some (withCharisma (skills p) (charisma (skills p) + 2))) None
  | TwitterFeud, SecondOption =>
      let success := Qltb 0.45 rnd in
      if success
      then mkPlayerUpdate (Some (fans p + 15000)) (Some (fame p + 100000)) None None
      else mkPlayerUpdate (Some (Z.max 0 (fans p - 5000))) None
             (Some (withCharisma (skills p) (Z.max 0 (charisma (skills p) - 5))))
             None
  | ViralTikTokSound, FirstOption =>
      mkPlayerUpdate (Some (fans p + 50000)) None None
        (Some (setFollowers (followers p) TikTok (fTikTok (followers p) + 10000)))
  | ViralTikTokSound, SecondOption =>
      mkPlayerUpdate (Some (fans p + 10000)) None
        (Some (withCharisma (skills p) (charisma (skills p) + 5))) None
  | GhostwriterLeak, FirstOption =>
      mkPlayerUpdate (Some (fans p + 2000)) None
        (Some (withSongwriting (skills p) (songwriting (skills p) + 5))) None
  | GhostwriterLeak, SecondOption =>
      let mess := Qltb 0.7 rnd in
      if mess
      then mkPlayerUpdate (Some (Z.max 0 (fans p - 10000)))
             (Some (Z.max 0 (fame p - 50000))) None None
      else mkPlayerUpdate None (Some (fame p + 1000)) None None
  end.

Definition orField {A : Type} (o : option A) (d : A) : A :=
  match o with Some v => v | None => d end.

(** [{ ...player, ...playerUpdate, skills: { ...player.skills,
    ...(playerUpdate.skills || {}) } }]. *)
Definition applyUpdate (p : Player) (u : PlayerUpdate) : Player :=
  mkPlayer (name p) (stageName p) (genre p)
           (orField (up_fans u) (fans p)) (orField (up_fame u) (fame p))
           (money p) (orField (up_followers u) (followers p))
           (orField (up_skills u) (skills p)) (labelId p).

(** [handleEventChoice]. *)
Definition handleEventChoice (ev : RandomEvent) (c : EventChoice) (rnd : Q)
                             (gameState : GameState) : Outcome :=
  let playerUpdate := effect ev c rnd gameState in
  Committed (withPlayer gameState (applyUpdate (player gameState) playerUpdate)).

(** [handleFanResponse]. *)
Definition handleFanResponse (o : FanOption) (gameState : GameState) : Outcome :=
  let p := player gameState in
  let p' :=
    match bonusType o with
    | BonusFans => withFans p (fans p + bonusValue o)
    | BonusMoney => withMoney p (money p + inject_Z (bonusValue o))%Q
    | BonusFame => withFame p (fame p + bonusValue o)
    | BonusCharisma =>
        withSkills p (withCharisma (skills p) (charisma (skills p) + bonusValue o))
    end in
  Committed (withPlayer gameState p').

(** *** Studio *)


Definition findArtist (REAL_ARTISTS_DATA : list RealArtist) (n : string)
  : option RealArtist :=
  find (fun a => String.eqb (artist_name a) n) REAL_ARTISTS_DATA.

(** [totalSessionCost]. *)
Definition totalSessionCost (REAL_ARTISTS_DATA : list RealArtist)
                            (draftForm : DraftForm) (sessionCosts : SessionCosts) : Z :=
  let cost := rent sessionCosts in
  let cost := if useGhostwriter draftForm then cost + ghostwriter sessionCosts else cost in
  let cost :=
    if nonEmpty (feature draftForm)
    then match findArtist REAL_ARTISTS_DATA (feature draftForm) with
         | Some artist => cost + artist_cost artist
         | None => cost
         end
    else cost in
  cost.

(** [startRecording]: the funds are checked on the closure [gameState], the
    session is paid from the state [prev] current at the update. *)
Definition startRecording (REAL_ARTISTS_DATA : list RealArtist)
                          (draftForm : DraftForm) (sessionCosts : SessionCosts)
                          (gameState prev : GameState) : Outcome :=
  let cost := totalSessionCost REAL_ARTISTS_DATA draftForm sessionCosts in
  if Qltb (money (player gameState)) (inject_Z cost)
  then Rejected "Insufficient funds for studio time."
  else Committed
         (withPlayer prev
            (withMoney (player prev) (money (player prev) - inject_Z cost)%Q)).

(** [handleTap]: the score of a tap at slider position [sliderPos]. *)
Definition tapScore (sliderPos : Q) : Q :=
  let accuracy := (100 - Qabs (50 - sliderPos) * 2)%Q in
  Qmax 0 accuracy.

Definition sumQ (xs : list Q) : Q := fold_left Qplus xs 0%Q.

(** The quality computed by [saveToVault] before the final [Math.min]. *)
Definition rawQuality (REAL_ARTISTS_DATA : list RealArtist) (k : Skills)
                      (draftForm : DraftForm) (miniGameScore : list Q) (rnd : Q) : Z :=
  let performanceBonus :=
    (sumQ miniGameScore / inject_Z (Z.of_nat (List.length miniGameScore)))%Q in
  let baseQuality :=
    (inject_Z (songwriting k + production k + vocals k) / 3)%Q in
  let baseQuality :=
    if useGhostwriter draftForm then (baseQuality + 15)%Q else baseQuality in
  let baseQuality :=
    if nonEmpty (feature draftForm)
    then match findArtist REAL_ARTISTS_DATA (feature draftForm) with
         | Some artist =>
             (baseQuality + Qmin 20 (inject_Z (artist_fame artist) / 500000))%Q
         | None => baseQuality
         end
    else baseQuality in
  Qfloor ((baseQuality * 0.7) + (performanceBonus * 0.3) + (rnd * 5))%Q.

(** The [quality] field of the song built by [saveToVault]. *)
Definition masteredQuality (REAL_ARTISTS_DATA : list RealArtist) (k : Skills)
                           (draftForm : DraftForm) (miniGameScore : list Q) (rnd : Q) : Z :=
  Z.min 100 (rawQuality REAL_ARTISTS_DATA k draftForm miniGameScore rnd).

(** [saveToVault].  With no tap recorded the average is [0 / 0], not a
    number of this embedding: the result is [None] there. *)
Definition saveToVault (REAL_ARTISTS_DATA : list RealArtist)
                       (draftForm : DraftForm) (miniGameScore : list Q)
                       (activeLyrics : string) (rid : string) (rnd : Q)
                       (gameState : GameState) : option Outcome :=
  if negb (nonEmpty (df_title draftForm)) then Some Ignored
  else
    match miniGameScore with
    | [] => None
    | _ :: _ =>
        let newSong :=
          mkSong rid (df_title draftForm) (df_genre draftForm)
                 (masteredQuality REAL_ARTISTS_DATA (skills (player gameState))
                                  draftForm miniGameScore rnd)
                 (currentDate gameState) 0 0%Q (Some activeLyrics) None
                 (orUndefined (feature draftForm)) None None in
        Some (Committed
          (mkGameState (player gameState) (currentDate gameState)
             (currentWeek gameState) (songs gameState)
             (newSong :: unreleasedSongs gameState) (awards gameState)
             (slice0 15
                (("Session wrapped: " ++ dq ++ df_title draftForm ++ dq
                  ++ " master added to vault.")%string :: news gameState))
             (socialPosts gameState) (trendingTopics gameState)
             (activeOffers gameState) (history gameState)))
    end.

(** *** Releases, posts and deals *)

(** The fresh id and the wall-clock time a handler stamps on a post. *)
Record PostEnv : Set := mkPostEnv { postRid : string; now : Z }.

(** [thumbnailUrl || undefined]. *)
Definition thumbnailField (t : option string) : option string :=
  match t with
  | Some u => orUndefined u
  | None => None
  end.

Definition withNews (s : GameState) (headline : string) : list string :=
  slice0 15 (headline :: news s).

(** [produceMusicVideo]. *)
Definition produceMusicVideo (pe : PostEnv) (thumb : Reply string) (song : Song)
                             (gameState prev : GameState) : Outcome :=
  let cost := 15000 in
  if Qltb (money (player gameState)) (inject_Z cost)
  then Rejected "Insufficient funds for Music Video production."
  else
    let thumbnailUrl := generateThumbnail thumb in
    let fanGain := Qfloor (inject_Z (fans (player gameState)) * 0.1)%Q + 20000 in
    let fameGain := quality song * 2000 in
    let releasePost :=
      mkSocialPost (postRid pe) YouTube
        ("The official music video for " ++ dq ++ title song ++ dq
         ++ " is out now! 🎬🔥")%string
        "Music Video"
        (Qfloor (inject_Z fanGain * 3)%Q)
        [mkComment "vfx_master" "Best visuals I've seen all year!"]
        (now pe)
        (mkImpact fanGain fameGain None)
        (Some (title song ++ " (Official Music Video)")%string)
        None
        (thumbnailField thumbnailUrl) in
    let p := player prev in
    Committed
      (mkGameState
         (mkPlayer (name p) (stageName p) (genre p)
            (fans p + fanGain) (fame p + fameGain)
            (money p - inject_Z cost)%Q
            (setFollowers (followers p) YouTube
               (fYouTube (followers p) + Qfloor (inject_Z fanGain * 0.4)%Q))
            (skills p) (labelId p))
         (currentDate prev) (currentWeek prev)
         (map (fun s =>
                 if String.eqb (song_id s) (song_id song)
                 then mkSong (song_id s) (title s) (song_genre s) (quality s)
                        (releaseDate s) (streams s) (revenue s) (lyrics s)
                        (chartPosition s) (featuredArtist s) (Some true)
                        (isMastered s)
                 else s) (songs prev))
         (unreleasedSongs prev) (awards prev)
         (withNews prev
            (stageName p ++ "'s visuals for " ++ dq ++ title song ++ dq
             ++ " are breaking the internet!")%string)
         (releasePost :: socialPosts prev) (trendingTopics prev)
         (activeOffers prev) (history prev)).

(** The price [distributeSong] asks for a platform. *)
Definition distributionCost (platform : SocialPlatform) : Z :=
  if SocialPlatform_eqb platform YouTube then 15000 else 250.

(** What [distributeSong] adds to the player's fans and fame. *)
Definition distributionFans (platform : SocialPlatform) (fanGain : Z) : Z :=
  if SocialPlatform_eqb platform YouTube then fanGain * 2 else fanGain.

Definition distributionFame (platform : SocialPlatform) (song : Song) : Z :=
  if SocialPlatform_eqb platform YouTube
  then quality song * 2000 else quality song * 1000.

(** [distributeSong]. *)
Definition distributeSong (pe : PostEnv) (thumb : Reply string)
                          (impactReply : Reply SongImpact) (newsReply : Reply string)
                          (song : Song) (platform : SocialPlatform)
                          (gameState prev : GameState) : Outcome :=
  let isVideo := SocialPlatform_eqb platform YouTube in
  let cost := distributionCost platform in
  let thumbnailUrl := if isVideo then generateThumbnail thumb else None in
  if Qltb (money (player gameState)) (inject_Z cost)
  then Rejected ("Insufficient funds for " ++ platformName platform
                 ++ " distribution.")%string
  else
    let i := calculateSongImpact impactReply (quality song)
               (fans (player gameState)) in
    let fanGain := fanGain i in
    let industryNews :=
      generateIndustryNews newsReply (stageName (player gameState)) in
    let updatedSong :=
      mkSong (song_id song) (title song) (song_genre song) (quality song)
             (currentDate gameState) (streams song) (revenue song) (lyrics song)
             (chartPosition song) (featuredArtist song) (Some isVideo)
             (isMastered song) in
    let releasePost :=
      mkSocialPost (postRid pe) platform
        ("My new " ++ (if isVideo then "Music Video" else "Track") ++ " " ++ dq
         ++ title song ++ dq ++ " is out now!")%string
        (if isVideo then "Music Video" else "Audio Release")%string
        (Qfloor (inject_Z fanGain * 2.5)%Q)
        [mkComment "music_bot" "Absolute heater! 🔥"]
        (now pe)
        (mkImpact fanGain (quality song * 100) None)
        (if isVideo then Some (title song) else None)
        None
        (thumbnailField thumbnailUrl) in
    let p := player prev in
    Committed
      (mkGameState
         (mkPlayer (name p) (stageName p) (genre p)
            (fans p + distributionFans platform fanGain)
            (fame p + distributionFame platform song)
            (money p - inject_Z cost)%Q
            (setFollowers (followers p) platform
               (getFollowers (followers p) platform
                + Qfloor (inject_Z fanGain * 0.2)%Q))
            (skills p) (labelId p))
         (currentDate prev) (currentWeek prev)
         (updatedSong :: songs prev)
         (filter (fun s => negb (String.eqb (song_id s) (song_id song)))
                 (unreleasedSongs prev))
         (awards prev)
         (withNews prev industryNews)
         (releasePost :: socialPosts prev) (trendingTopics prev)
         (activeOffers prev) (history prev)).

(** [content.includes (t)]. *)
Definition includes (content t : string) : bool :=
  match index 0 t content with
  | Some _ => true
  | None => false
  end.

(** [handlePostSocial]. *)
Definition handlePostSocial (pe : PostEnv) (thumb : Reply string)
                            (engagementReply : Reply (list Comment))
                            (activePlatform : SocialPlatform)
                            (postDraft : PostDraft) (isPosting : bool)
                            (gameState : GameState) : Outcome :=
  let isVideo := SocialPlatform_eqb activePlatform YouTube in
  if isVideo && (negb (nonEmpty (pd_videoTitle postDraft)) || isPosting) then Ignored
  else if negb isVideo && (negb (nonEmpty (pd_content postDraft)) || isPosting)
  then Ignored
  else
    let trendMatches :=
      Z.of_nat (List.length
                  (filter (fun t => includes (pd_content postDraft) t)
                          (trendingTopics gameState))) in
    let trendMultiplier :=
      if 0 <? trendMatches then (1.5 + inject_Z trendMatches * 0.2)%Q else 1%Q in
    let thumbnailUrl := if isVideo then generateThumbnail thumb else None in
    let engagement := generateSocialEngagement engagementReply in
    let baseAudience := (inject_Z (fans (player gameState)) * 0.01 + 10)%Q in
    let '(fanGain, fameGain) :=
      match activePlatform with
      | Instagram =>
          let g := Qfloor (baseAudience * 0.5 * trendMultiplier)%Q in (g, g * 2)
      | TikTok =>
          let g := Qfloor (baseAudience * 2 * trendMultiplier)%Q in (g, g)
      | YouTube =>
          let g := Qfloor (baseAudience * 1.5 * trendMultiplier)%Q in (g, g * 4)
      | _ =>
          let g := Qfloor (baseAudience * 0.2 * trendMultiplier)%Q in (g, g)
      end in
    let newPost :=
      mkSocialPost (postRid pe) activePlatform (pd_content postDraft)
        (pd_type postDraft)
        (Qfloor (inject_Z fanGain * 2)%Q)
        engagement (now pe)
        (mkImpact fanGain fameGain None)
        (if isVideo then Some (pd_videoTitle postDraft) else None)
        (if isVideo then Some (pd_videoDescription postDraft) else None)
        (thumbnailField thumbnailUrl) in
    let p := player gameState in
    Committed
      (mkGameState
         (mkPlayer (name p) (stageName p) (genre p)
            (fans p + fanGain) (fame p + fameGain) (money p)
            (setFollowers (followers p) activePlatform
               (getFollowers (followers p) activePlatform + fanGain))
            (skills p) (labelId p))
         (currentDate gameState) (currentWeek gameState) (songs gameState)
         (unreleasedSongs gameState) (awards gameState) (news gameState)
         (newPost :: socialPosts gameState) (trendingTopics gameState)
         (activeOffers gameState) (history gameState)).

(** [handleAcceptDeal]: the post is built from the closure [gameState], the
    update is applied to [prev]. *)
Definition handleAcceptDeal (pe : PostEnv) (activePlatform : SocialPlatform)
                            (deal : SponsoredOffer)
                            (gameState prev : GameState) : Outcome :=
  let postContent :=
    ("I am so excited to partner with " ++ brand deal ++ "! "
     ++ requirement deal ++ " #Ad #Sponsored")%string in
  let fanGain := Qfloor (inject_Z (fans (player gameState)) * 0.02)%Q in
  let charismaPenalty := charismaPenalty deal in
  let newPost :=
    mkSocialPost (postRid pe) activePlatform postContent "Sponsored"
      (Qfloor (inject_Z fanGain * 0.5)%Q)
      [mkComment "sponsorship_bot" "Verified partner! ✅"]
      (now pe)
      (mkImpact fanGain (fanGain * 2) None)
      None None None in
  let p := player prev in
  Committed
    (mkGameState
       (mkPlayer (name p) (stageName p) (genre p) (fans p) (fame p)
          (money p + payout deal)%Q (followers p)
          (withCharisma (skills p)
             (Z.max 0 (charisma (skills p) - charismaPenalty)))
          (labelId p))
       (currentDate prev) (currentWeek prev) (songs prev)
       (unreleasedSongs prev) (awards prev) (news prev)
       (newPost :: socialPosts prev) (trendingTopics prev)
       (filter (fun o => negb (String.eqb (offer_id o) (offer_id deal)))
               (activeOffers prev))
       (history prev)).

(** [schedulePostForSong]. *)
Definition schedulePostForSong (pe : PostEnv)
                               (engagementReply : Reply (list Comment))
                               (song : Song) (platform : SocialPlatform)
                               (gameState : GameState) : Outcome :=
  let p := player gameState in
  let content :=
    ("Coming soon to " ++ platformName platform ++ ": " ++ dq ++ title song ++ dq
     ++ "! Get ready. #NewMusic #" ++ stageName p)%string in
  let engagement := generateSocialEngagement engagementReply in
  let baseAudience := (inject_Z (fans p) * 0.02 + 50)%Q in
  let fanGain := Qfloor baseAudience in
  let fameGain := fanGain * 3 in
  let target :=
    if SocialPlatform_eqb platform YouTube then YouTube else Instagram in
  let newPost :=
    mkSocialPost (postRid pe) target content "Teaser" (fanGain * 5)
      engagement (now pe) (mkImpact fanGain fameGain None) None None None in
  Committed
    (mkGameState
       (mkPlayer (name p) (stageName p) (genre p)
          (fans p + fanGain) (fame p + fameGain) (money p)
          (setFollowers (followers p) target
             (getFollowers (followers p) target
              + Qfloor (inject_Z fanGain * 0.5)%Q))
          (skills p) (labelId p))
       (currentDate gameState) (currentWeek gameState) (songs gameState)
       (unreleasedSongs gameState) (awards gameState) (news gameState)
       (newPost :: socialPosts gameState) (trendingTopics gameState)
       (activeOffers gameState) (history gameState)).

(** ** The compact variant of [App.tsx]

    The sources hold a second, smaller copy of [App.tsx]: no session
    costs, no release fees, no follower compounding, one award category and
    two career events.  Its versions of the functions that differ are
    embedded here; [getStreamRate] is the same function in both. *)

Module Compact.

Definition RANDOM_EVENTS : list RandomEvent := [TwitterFeud; ViralTikTokSound].

(** [runAwardsSeason]. *)
Definition runAwardsSeason (sfx1 : string) (state : GameState) : list Award :=
  let wonAwards : list Award := [] in
  let year := getFullYear (currentDate state) in
  if (fans (player state) >? 1000000)
     && (3 <=? Z.of_nat (List.length (songs state)))
  then
    let bestSong :=
      hd_error (sortBy (fun a b => quality b - quality a) (songs state)) in
    match bestSong with
    | Some best =>
        if quality best >? 85
        then wonAwards ++
             [ mkAward ("aoy-" ++ yearString year ++ "-" ++ sfx1) year
                 "Album of the Year"
                 "Masterpiece of production and songwriting." ]
        else wonAwards
    | None => wonAwards
    end
  else wonAwards.

(** The callback of [prev.songs.map] in [advanceTime]. *)
Definition updateSong (p : Player) (currentRate : Q) (rnd : Q) (song : Song) : Song :=
  let newTotalStreams := streams song + Z.max 1 (weeklyGain p song rnd) in
  withStreams song newTotalStreams (inject_Z newTotalStreams * currentRate)%Q.

(** [advanceTime]. *)
Definition advanceTime (LABELS : list Label) (e : AdvanceEnv) (prev : GameState)
  : AdvanceResult :=
  let nextWeek := currentWeek prev + 1 in
  let nextDate := currentDate prev in
  let newPlayerState := player prev in
  let newAwards := awards prev in
  let newNews := news prev in
  let newHistory := history prev in
  let newTrending := trendingTopics prev in
  let newOffers := activeOffers prev in
  let currentRate := getStreamRate (fans (player prev)) in
  let updatedSongs :=
    mapi_from (fun i song => updateSong (player prev) currentRate (streamRoll e i) song)
              0 (songs prev) in
  let commit nextDate nextWeek newPlayerState newAwards newHistory
             newTrending newOffers :=
    mkGameState newPlayerState nextDate nextWeek updatedSongs
                (unreleasedSongs prev) newAwards (slice0 15 newNews)
                (socialPosts prev) newTrending newOffers newHistory in
  if nextWeek >? 4 then
    let nextWeek := 1 in
    let nextDate := nextMonth nextDate in
    let newTrending := generateTrendingTopics (trendingReply e) in
    let newOffers :=
      if Qltb (offerGate e) 0.6
      then
        let offer := generateSponsoredOffer (offerReply e) (offerRid e) in
        slice0 3 (offer :: newOffers)
      else newOffers in
    let wonAwards :=
      if getMonth nextDate =? 0 then runAwardsSeason (awardSfx1 e) prev else [] in
    let won := (getMonth nextDate =? 0) && (0 <? Z.of_nat (List.length wonAwards)) in
    let newAwards := if won then newAwards ++ wonAwards else newAwards in
    let newPlayerState :=
      if won
      then
        let p1 := withFame newPlayerState
                    (fame newPlayerState + Z.of_nat (List.length wonAwards) * 500000) in
        withMoney p1
          (money p1 + inject_Z (Z.of_nat (List.length wonAwards) * 100000))%Q
      else newPlayerState in
    let monthlyActivity := monthlyActivity (songs prev) updatedSongs in
    let share := labelShare LABELS (labelId (player prev)) in
    let newPlayerState :=
      withMoney newPlayerState
        (money newPlayerState + inject_Z monthlyActivity * currentRate * share)%Q in
    let newPlayerState :=
      withFans newPlayerState
        (fans newPlayerState + Qfloor (inject_Z (fans (player prev)) * 0.05)%Q) in
    let newHistory :=
      newHistory ++ [mkHistoryPoint (Z.of_nat (List.length newHistory))
                                    (fans newPlayerState)] in
    let event :=
      if Qltb (eventGate e) 0.45
      then nth_error RANDOM_EVENTS
             (Z.to_nat (Qfloor (eventPick e
                                * inject_Z (Z.of_nat (List.length RANDOM_EVENTS)))%Q))
      else None in
    mkAdvanceResult
      (commit nextDate nextWeek newPlayerState newAwards newHistory
              newTrending newOffers)
      None event None
  else
    let newPlayerState :=
      withFans newPlayerState
        (fans newPlayerState + Qfloor (inject_Z (fans (player prev)) * 0.01)%Q) in
    mkAdvanceResult
      (commit nextDate nextWeek newPlayerState newAwards newHistory
              newTrending newOffers)
      None None None.

(** The [quality] field of the song built by [saveToVault]. *)
Definition masteredQuality (k : Skills) (miniGameScore : list Q) (rnd : Q) : Z :=
  let performanceBonus :=
    (sumQ miniGameScore / inject_Z (Z.of_nat (List.length miniGameScore)))%Q in
  let baseQuality :=
    (inject_Z (songwriting k + production k + vocals k) / 3)%Q in
  let quality :=
    Qfloor ((baseQuality * 0.7) + (performanceBonus * 0.3) + (rnd * 5))%Q in
  Z.min 100 quality.

(** [saveToVault]; [None] where the average of no tap is not a number. *)
Definition saveToVault (draftForm : DraftForm) (miniGameScore : list Q)
                       (activeLyrics : string) (rid : string) (rnd : Q)
                       (gameState prev : GameState) : option Outcome :=
  match miniGameScore with
  | [] => None
  | _ :: _ =>
      let newSong :=
        mkSong rid (df_title draftForm) (df_genre draftForm)
               (masteredQuality (skills (player gameState)) miniGameScore rnd)
               (currentDate gameState) 0 0%Q (Some activeLyrics) None
               (orUndefined (feature draftForm)) None (Some true) in
      Some (Committed
        (mkGameState (player prev) (currentDate prev) (currentWeek prev)
           (songs prev)
           (newSong :: filter (fun s => negb (String.eqb (title s)
                                                          (df_title draftForm)))
                              (unreleasedSongs prev))
           (awards prev) (news prev) (socialPosts prev) (trendingTopics prev)
           (activeOffers prev) (history prev)))
  end.

(** [distributeSong]: no fee, and the same gain on every platform. *)
Definition distributeSong (impactReply : Reply SongImpact)
                          (song : Song) (platform : SocialPlatform)
                          (gameState prev : GameState) : Outcome :=
  let i := calculateSongImpact impactReply (quality song)
             (fans (player gameState)) in
  let updatedSong :=
    mkSong (song_id song) (title song) (song_genre song) (quality song)
           (currentDate gameState) (streams song) (revenue song) (lyrics song)
           (chartPosition song) (featuredArtist song)
           (Some (SocialPlatform_eqb platform YouTube)) (isMastered song) in
  Committed
    (mkGameState
       (withFans (player prev) (fans (player prev) + fanGain i))
       (currentDate prev) (currentWeek prev)
       (updatedSong :: songs prev)
       (filter (fun s => negb (String.eqb (song_id s) (song_id song)))
               (unreleasedSongs prev))
       (awards prev) (news prev) (socialPosts prev) (trendingTopics prev)
       (activeOffers prev) (history prev)).

(** [handleAcceptDeal]. *)
Definition handleAcceptDeal (pe : PostEnv)
                            (engagementReply : Reply (list Comment))
                            (deal : SponsoredOffer) (prev : GameState) : Outcome :=
  let engagement := generateSocialEngagement engagementReply in
  let p := player prev in
  let newPost :=
    mkSocialPost (postRid pe) Instagram (requirement deal) "Sponsored"
      (Qfloor (inject_Z (fans p) * 0.05)%Q)
      engagement (now pe) (mkImpact 0 5000 None) None None None in
  Committed
    (mkGameState
       (mkPlayer (name p) (stageName p) (genre p) (fans p) (fame p)
          (money p + payout deal)%Q (followers p)
          (withCharisma (skills p)
             (Z.max 0 (charisma (skills p) - charismaPenalty deal)))
          (labelId p))
       (currentDate prev) (currentWeek prev) (songs prev)
       (unreleasedSongs prev) (awards prev) (news prev)
       (newPost :: socialPosts prev) (trendingTopics prev)
       (filter (fun o => negb (String.eqb (offer_id o) (offer_id deal)))
               (activeOffers prev))
       (history prev)).

(** The money the awards of a call add in this variant. *)
Definition awardMoney (e : AdvanceEnv) (prev : GameState) : Z :=
  if getMonth (nextMonth (currentDate prev)) =? 0
  then Z.of_nat (List.length (runAwardsSeason (awardSfx1 e) prev)) * 100000
  else 0.

(** The states after successive calls of [advanceTime], oldest first. *)
Fixpoint advanceStates (LABELS : list Label) (inputs : list AdvanceEnv)
                       (s : GameState) : list GameState :=
  match inputs with
  | [] => []
  | e :: rest =>
      let s' := nextState (advanceTime LABELS e s) in
      s' :: advanceStates LABELS rest s'
  end.

(** [saveToVaultDraft]: a song idea goes to the vault unmastered. *)
Definition saveToVaultDraft (draftForm : DraftForm) (activeLyrics : string)
                            (rid : string) (gameState prev : GameState) : Outcome :=
  let newSong :=
    mkSong rid (df_title draftForm) (df_genre draftForm) 0
           (currentDate gameState) 0 0%Q (Some activeLyrics) None
           (orUndefined (feature draftForm)) None (Some false) in
  Committed
    (mkGameState (player prev) (currentDate prev) (currentWeek prev)
       (songs prev) (newSong :: unreleasedSongs prev)
       (awards prev) (news prev) (socialPosts prev) (trendingTopics prev)
       (activeOffers prev) (history prev)).

(** [handlePostSocial]. *)
Definition handlePostSocial (pe : PostEnv)
                            (engagementReply : Reply (list Comment))
                            (activePlatform : SocialPlatform)
                            (postDraft : PostDraft)
                            (gameState prev : GameState) : Outcome :=
  let engagement := generateSocialEngagement engagementReply in
  let fanGain := Qfloor (inject_Z (fans (player gameState)) * 0.01 + 10)%Q in
  let newPost :=
    mkSocialPost (postRid pe) activePlatform (pd_content postDraft)
      (pd_type postDraft) (fanGain * 2) engagement (now pe)
      (mkImpact fanGain (fanGain * 2) None) None None None in
  let p := player prev in
  Committed
    (mkGameState
       (mkPlayer (name p) (stageName p) (genre p)
          (fans p + fanGain) (fame p) (money p)
          (setFollowers (followers p) activePlatform
             (getFollowers (followers p) activePlatform + fanGain))
          (skills p) (labelId p))
       (currentDate prev) (currentWeek prev) (songs prev)
       (unreleasedSongs prev) (awards prev) (news prev)
       (newPost :: socialPosts prev) (trendingTopics prev)
       (activeOffers prev) (history prev)).

(** The label cards of the management view: the button of [label] is
    disabled unless the fame reaches the label's requirement and the player
    is not signed to it already; its click credits the signing bonus and
    switches the label.  The cards show the labels other than the
    self-released one. *)
Definition signable (label : Label) (gameState : GameState) : bool :=
  let eligible := fameRequirement label <=? fame (player gameState) in
  let disabled :=
    negb eligible
    || match labelId (player gameState) with
       | Some i => String.eqb i (label_id label)
       | None => false
       end in
  negb disabled.

Definition signLabel (label : Label) (gameState s : GameState) : Outcome :=
  if signable label gameState
  then
    let p := player s in
    Committed
      (withPlayer s
         (mkPlayer (name p) (stageName p) (genre p) (fans p) (fame p)
            (money p + signingBonus label)%Q (followers p) (skills p)
            (Some (label_id label))))
  else Ignored.

End Compact.

(** ** The career as a transition system

    One step is one handler of the full [App.tsx] run to completion by the
    single actor of the game: the closure state and the state at the update
    are the same state.  A career starts at [handleStartGame];
    [handleContinue] puts back a state that [saveToStorage] wrote, which is
    a state some career had reached. *)

Section Career.

Variable LABELS : list Label.
Variable REAL_ARTISTS_DATA : list RealArtist.

Inductive step (s : GameState) : GameState -> Prop :=
  | step_advanceTime (pendingAwards : option (list Award)) (e : AdvanceEnv) :
      step s (nextState (advanceTime LABELS pendingAwards e s))
  | step_handleEventChoice ev c rnd :
      step s (stateAfter (handleEventChoice ev c rnd s) s)
  | step_handleFanResponse o :
      step s (stateAfter (handleFanResponse o s) s)
  | step_startRecording draftForm sessionCosts :
      step s (stateAfter
                (startRecording REAL_ARTISTS_DATA draftForm sessionCosts s s) s)
  | step_saveToVault draftForm miniGameScore activeLyrics rid rnd o :
      saveToVault REAL_ARTISTS_DATA draftForm miniGameScore activeLyrics
                  rid rnd s = Some o ->
      step s (stateAfter o s)
  | step_produceMusicVideo pe thumb song :
      step s (stateAfter (produceMusicVideo pe thumb song s s) s)
  | step_distributeSong pe thumb impactReply newsReply song platform :
      step s (stateAfter
                (distributeSong pe thumb impactReply newsReply song platform s s) s)
  | step_handlePostSocial pe thumb engagementReply activePlatform postDraft isPosting :
      step s (stateAfter
                (handlePostSocial pe thumb engagementReply activePlatform
                                  postDraft isPosting s) s)
  | step_handleAcceptDeal pe activePlatform deal :
      step s (stateAfter (handleAcceptDeal pe activePlatform deal s s) s)
  | step_schedulePostForSong pe engagementReply song platform :
      step s (stateAfter (schedulePostForSong pe engagementReply song platform s) s).

Inductive reachable : GameState -> Prop :=
  | reachable_start playerName stage g :
      reachable (initialState playerName stage g)
  | reachable_step s s' :
      reachable s -> step s s' -> reachable s'.

End Career.

(** Successive calls of [advanceTime]: the results, oldest first. *)
Fixpoint advanceTrace (LABELS : list Label)
                      (inputs : list (option (list Award) * AdvanceEnv))
                      (s : GameState) : list AdvanceResult :=
  match inputs with
  | [] => []
  | (pendingAwards, e) :: rest =>
      let r := advanceTime LABELS pendingAwards e s in
      r :: advanceTrace LABELS rest (nextState r)
  end.

(** The state after successive calls of [advanceTime]. *)
Fixpoint advanceMany (LABELS : list Label)
                     (inputs : list (option (list Award) * AdvanceEnv))
                     (s : GameState) : GameState :=
  match inputs with
  | [] => s
  | (pendingAwards, e) :: rest =>
      advanceMany LABELS rest (nextState (advanceTime LABELS pendingAwards e s))
  end.

(** A call of [advanceTime] is a monthly settlement when the week counter
    rolls over; it is the branch that notifies the payout. *)
Definition rollsOver (prev : GameState) : bool := currentWeek prev + 1 >? 4.

Definition settled (r : AdvanceResult) : bool :=
  match payoutNotice r with
  | Some _ => true
  | None => false
  end.

(** The sum of the weekly gains [advanceTime] applies to the songs [l], the
    first of them drawing [rolls i]. *)
Fixpoint weeklyGains (p : Player) (rolls : nat -> Q) (i : nat) (l : list Song) : Z :=
  match l with
  | [] => 0
  | song :: r => finalWeeklyGain p song (rolls i) + weeklyGains p rolls (S i) r
  end.

(** The money the awards of a call add: 100,000 for each award won on a
    December rollover. *)
Definition awardMoney (e : AdvanceEnv) (prev : GameState) : Z :=
  if getMonth (currentDate prev) =? 11
  then Z.of_nat (List.length (runAwardsSeason (awardSfx1 e) (awardSfx2 e) prev))
       * 100000
  else 0.

(** ** Further functions of [App.tsx] *)

(** [updateSlider]: the slider position and direction after one animation
    frame; [taps] is the number of scores recorded so far. *)
Definition updateSlider (taps : nat) (sliderDir : Z) (prev : Q) : Q * Z :=
  let speed := (2.5 + inject_Z (Z.of_nat taps) * 0.5)%Q in
  let next := (prev + inject_Z sliderDir * speed)%Q in
  if Qltb 100 next then (100%Q, -1)
  else if Qltb next 0 then (0%Q, 1)
  else (next, sliderDir).

(** [checkFanInteraction]: the interaction handed to
    [setActiveFanInteraction], if any. *)
Definition checkFanInteraction (impact : Z) (rnd : Q) (reply : Reply FanInteraction)
  : option FanInteraction :=
  if (impact >? 1000) && Qltb rnd 0.3
  then generateFanInteraction reply
  else None.

(** The numbers [handlePostSocial] computes before it builds the post. *)
Definition trendMatches (postContent : string) (topics : list string) : Z :=
  Z.of_nat (List.length (filter (fun t => includes postContent t) topics)).

Definition trendMultiplier (matches : Z) : Q :=
  if 0 <? matches then (1.5 + inject_Z matches * 0.2)%Q else 1%Q.

Definition postFanGain (activePlatform : SocialPlatform) (playerFans matches : Z) : Z :=
  let baseAudience := (inject_Z playerFans * 0.01 + 10)%Q in
  match activePlatform with
  | Instagram => Qfloor (baseAudience * 0.5 * trendMultiplier matches)%Q
  | TikTok => Qfloor (baseAudience * 2 * trendMultiplier matches)%Q
  | YouTube => Qfloor (baseAudience * 1.5 * trendMultiplier matches)%Q
  | _ => Qfloor (baseAudience * 0.2 * trendMultiplier matches)%Q
  end.


(** The calendar as a count of months. *)
Definition monthIndex (d : Date) : Z := 12 * getFullYear d + getMonth d.

(** ** Sample data *)

(** Modelled from the spec: the table [LABELS] of [constants.ts] is not
    among the sources; the spec says of it that the self-released default
    label keeps 100% of the revenue.  Only the id and the revenue split of
    this entry are used. *)
Definition SELF_RELEASED : Label :=
  mkLabel "indie_self" "Independent" 0 0 0 100 EmptyString EmptyString.

Definition SAMPLE_LABELS : list Label := [SELF_RELEASED].

(** The service is down and every [Math.random()] returns 0. *)
Definition quietEnv : AdvanceEnv :=
  mkAdvanceEnv (fun _ => 0%Q) Failed 0%Q Failed "r0" "a1" "a2" 0%Q 0%Q.

Definition quietCalls (n : nat) : list (option (list Award) * AdvanceEnv) :=
  repeat (None, quietEnv) n.

Definition samplePostEnv : PostEnv := mkPostEnv "p1" 0.

Definition sampleSong (q : Z) : Song :=
  mkSong "s1" "Demo" POP q (mkDate 2025 0) 0 0%Q None None None None None.

(** A career one week into a month with one released song of quality 0. *)
Definition oneSongState : GameState :=
  mkGameState
    (mkPlayer "Ada" "ADA" POP 100 0 5000
       (mkFollowers 50 75 20 10 5) (mkSkills 20 30 10 40) (Some "indie_self"%string))
    (mkDate 2025 1) 1 [sampleSong 0] [] [] [] [] [] [] [mkHistoryPoint 0 100].

(** A career able to pay for a video release. *)
Definition richState : GameState :=
  withPlayer (initialState "Ada" "ADA" POP)
    (withMoney (player (initialState "Ada" "ADA" POP)) 20000%Q).

(** A career in the last week of December 2025 with 1,500,000 fans and
    three released songs, the best of quality 90. *)
Definition decemberState : GameState :=
  mkGameState
    (mkPlayer "Ada" "ADA" POP 1500000 0 5000
       (mkFollowers 50 75 20 10 5) (mkSkills 20 30 10 40) (Some "indie_self"%string))
    (mkDate 2025 11) 4
    [ mkSong "s1" "One" POP 70 (mkDate 2025 3) 0 0%Q None None None None None;
      mkSong "s2" "Two" POP 90 (mkDate 2025 5) 0 0%Q None None None None None;
      mkSong "s3" "Three" POP 80 (mkDate 2025 8) 0 0%Q None None None None None ]
    [] [] [] [] [] [] [mkHistoryPoint 0 100].

(** The service answers the offer request of a rollover. *)
Definition fizzOffer : SponsoredOffer :=
  mkSponsoredOffer EmptyString "Fizz" 800 "Post a story with a can of Fizz" 2.

Definition fizzEnv : AdvanceEnv :=
  mkAdvanceEnv (fun _ => 0%Q) Failed 0%Q (Answered fizzOffer) "r17" "a1" "a2"
               0%Q 0%Q.

(** ** Invariants of a career *)

(** At most three offers are active, and the skills that enter the quality
    of a song are not negative. *)
Definition careerInvariant (s : GameState) : Prop :=
  (List.length (activeOffers s) <= 3)%nat
  /\ 0 <= songwriting (skills (player s))
  /\ 0 <= production (skills (player s))
  /\ 0 <= vocals (skills (player s)).

(** The number of active offers that carry the id of [deal]. *)
Definition offersWithId (deal : SponsoredOffer) (l : list SponsoredOffer) : nat :=
  List.length (filter (fun o => String.eqb (offer_id o) (offer_id deal)) l).

(** * Properties *)

(** ** Arithmetic helpers *)

(** Division by a constant becomes multiplication by its inverse, which
    linear arithmetic understands. *)
Ltac qconst :=
  unfold Qdiv in *;
  repeat match goal with
  | |- context [Qinv (Qmake ?n ?d)] =>
      let v := eval vm_compute in (Qinv (Qmake n d)) in
      change (Qinv (Qmake n d)) with v
  | H : context [Qinv (Qmake ?n ?d)] |- _ =>
      let v := eval vm_compute in (Qinv (Qmake n d)) in
      change (Qinv (Qmake n d)) with v in H
  end.

Lemma Qltb_lt (x y : Q) : Qltb x y = true <-> (x < y)%Q.
Proof.
  unfold Qltb. rewrite negb_true_iff. split.
  - intros E. apply Qnot_le_lt. intros L.
    apply Qle_bool_iff in L. congruence.
  - intros L. destruct (Qle_bool y x) eqn:E; [|reflexivity].
    apply Qle_bool_iff in E. exfalso. exact (Qle_not_lt _ _ E L).
Qed.

Lemma Qltb_ge (x y : Q) : Qltb x y = false <-> (y <= x)%Q.
Proof.
  unfold Qltb. rewrite negb_false_iff. apply Qle_bool_iff.
Qed.

Lemma inject_Z_nonneg (z : Z) : 0 <= z -> (0 <= inject_Z z)%Q.
Proof.
  intros H. change 0%Q with (inject_Z 0). now rewrite <- Zle_Qle.
Qed.

Lemma Qfloor_nonneg (x : Q) : (0 <= x)%Q -> 0 <= Qfloor x.
Proof.
  intros H. change 0 with (Qfloor 0). now apply Qfloor_resp_le.
Qed.

Lemma gtb_false (a b : Z) : a <= b -> (a >? b) = false.
Proof.
  intros H. rewrite Z.gtb_ltb. apply Z.ltb_ge. exact H.
Qed.

Lemma gtb_true (a b : Z) : b < a -> (a >? b) = true.
Proof.
  intros H. rewrite Z.gtb_ltb. apply Z.ltb_lt. exact H.
Qed.

Lemma orElse_zero (x : Z) : orElse x 0 = x.
Proof.
  unfold orElse. destruct (x =? 0) eqn:E; [|reflexivity].
  apply Z.eqb_eq in E. now subst.
Qed.

(** ** The streaming rate *)

(** C5.  The streaming rate never decreases when the fans grow (for all
    fan counts, in particular the non-negative ones); below 1,000,000 fans
    it is exactly 0.5; from 1,000,000 fans on it is 0.5 plus
    (fans - 1,000,000) * 1e-7. *)
Theorem getStreamRate_monotone_exact :
  (forall a b : Z, a <= b -> (getStreamRate a <= getStreamRate b)%Q)
  /\ (forall fans : Z, fans < 1000000 -> (getStreamRate fans == 0.5)%Q)
  /\ (forall fans : Z, 1000000 <= fans ->
        (getStreamRate fans == 0.5 + (inject_Z fans - 1000000) * 0.0000001)%Q).
Proof.
  repeat split.
  - intros a b Hab. unfold getStreamRate.
    destruct (a <? 1000000) eqn:Ea; destruct (b <? 1000000) eqn:Eb.
    + apply Qle_refl.
    + apply Z.ltb_ge in Eb. rewrite Zle_Qle in Eb.
      change (inject_Z 1000000) with 1000000%Q in Eb. qconst. lra.
    + apply Z.ltb_lt in Eb. apply Z.ltb_ge in Ea. lia.
    + rewrite Zle_Qle in Hab. qconst. lra.
  - intros fans H. unfold getStreamRate.
    apply Z.ltb_lt in H. rewrite H. reflexivity.
  - intros fans H. unfold getStreamRate.
    apply Z.ltb_ge in H. rewrite H. qconst. lra.
Qed.

Lemma getStreamRate_monotone_exact_witness :
  (getStreamRate 100 <= getStreamRate 2000000)%Q
  /\ (getStreamRate 100 == 0.5)%Q
  /\ (getStreamRate 2000000 == 0.5 + (inject_Z 2000000 - 1000000) * 0.0000001)%Q.
Proof.
  destruct getStreamRate_monotone_exact as [mono [low high]].
  split; [apply mono; lia | split; [apply low; lia | apply high; lia]].
Defined.

(** ** Weekly follower growth *)

(** C10.  On a call of [advanceTime] that does not roll the week counter
    over, the Instagram followers become floor(Instagram * 1.01), the
    TikTok followers floor(TikTok * 1.02), and the YouTube, Spotify and
    AppleMusic followers stay as they were. *)
Theorem advanceTime_weekly_followers
    (LABELS : list Label) (pendingAwards : option (list Award))
    (e : AdvanceEnv) (prev : GameState) :
  currentWeek prev + 1 <= 4 ->
  let f := followers (player prev) in
  let f' := followers (player (nextState (advanceTime LABELS pendingAwards e prev))) in
  fInstagram f' = Qfloor (inject_Z (fInstagram f) * 1.01)%Q
  /\ fTikTok f' = Qfloor (inject_Z (fTikTok f) * 1.02)%Q
  /\ fYouTube f' = fYouTube f
  /\ fSpotify f' = fSpotify f
  /\ fAppleMusic f' = fAppleMusic f.
Proof.
  intros Hweek. unfold advanceTime.
  rewrite (gtb_false _ _ Hweek). cbn. repeat split; reflexivity.
Qed.

Lemma advanceTime_weekly_followers_witness :
  let s := initialState "Ada" "ADA" POP in
  let f' := followers (player (nextState (advanceTime SAMPLE_LABELS None quietEnv s))) in
  fInstagram f' = 50 /\ fTikTok f' = 76 /\ fYouTube f' = 20
  /\ fSpotify f' = 10 /\ fAppleMusic f' = 5.
Proof.
  exact (advanceTime_weekly_followers SAMPLE_LABELS None quietEnv
           (initialState "Ada" "ADA" POP) ltac:(vm_compute; discriminate)).
Defined.

(** ** What a call of [advanceTime] leaves in each field *)

Ltac split_ifs :=
  repeat match goal with
  | |- context [if ?c then _ else _] => destruct c
  end.

Section AdvanceTimeFields.

Variable LABELS : list Label.
Variable pendingAwards : option (list Award).
Variable e : AdvanceEnv.
Variable prev : GameState.

Let next := nextState (advanceTime LABELS pendingAwards e prev).
Let won := runAwardsSeason (awardSfx1 e) (awardSfx2 e) prev.
Let royalties :=
  (inject_Z (monthlyActivity (songs prev)
               (updateSongs (player prev) (getStreamRate (fans (player prev)))
                            (streamRoll e) (songs prev)))
   * getStreamRate (fans (player prev))
   * labelShare LABELS (labelId (player prev)))%Q.

Lemma advanceTime_currentWeek :
  currentWeek next = if rollsOver prev then 1 else currentWeek prev + 1.
Proof.
  subst next. unfold advanceTime, rollsOver.
  destruct (currentWeek prev + 1 >? 4); reflexivity.
Qed.

Lemma advanceTime_settled :
  settled (advanceTime LABELS pendingAwards e prev) = rollsOver prev.
Proof.
  unfold advanceTime, rollsOver, settled.
  destruct (currentWeek prev + 1 >? 4); reflexivity.
Qed.

Lemma advanceTime_trendingTopics :
  trendingTopics next =
  if rollsOver prev then generateTrendingTopics (trendingReply e)
  else trendingTopics prev.
Proof.
  subst next. unfold advanceTime, rollsOver.
  destruct (currentWeek prev + 1 >? 4); reflexivity.
Qed.

Lemma advanceTime_activeOffers :
  activeOffers next =
  if rollsOver prev && Qltb (offerGate e) 0.6
  then slice0 3 (generateSponsoredOffer (offerReply e) (offerRid e)
                 :: activeOffers prev)
  else activeOffers prev.
Proof.
  subst next. unfold advanceTime, rollsOver.
  destruct (currentWeek prev + 1 >? 4); [|reflexivity].
  cbn. destruct (Qltb (offerGate e) 0.6); reflexivity.
Qed.

Lemma advanceTime_skills : skills (player next) = skills (player prev).
Proof.
  subst next. unfold advanceTime.
  destruct (currentWeek prev + 1 >? 4); cbn; [|reflexivity].
  destruct (getMonth (currentDate prev) =? 11); cbn; [|reflexivity].
  destruct (0 <? _); reflexivity.
Qed.

Lemma advanceTime_fans :
  fans (player next) =
  fans (player prev)
  + Qfloor (inject_Z (fans (player prev))
            * (if rollsOver prev then 0.05 else 0.01))%Q.
Proof.
  subst next. unfold advanceTime, rollsOver.
  destruct (currentWeek prev + 1 >? 4); cbn; [|reflexivity].
  destruct (getMonth (currentDate prev) =? 11); cbn; [|reflexivity].
  destruct (0 <? _); reflexivity.
Qed.

Lemma advanceTime_songs :
  songs next =
  updateSongs (player prev) (getStreamRate (fans (player prev)))
              (streamRoll e) (songs prev).
Proof.
  subst next. unfold advanceTime.
  destruct (currentWeek prev + 1 >? 4); reflexivity.
Qed.



Lemma advanceTime_money :
  (money (player next) ==
   if rollsOver prev
   then money (player prev) + inject_Z (awardMoney e prev) + royalties
   else money (player prev))%Q.
Proof.
  subst next royalties. unfold advanceTime, rollsOver, awardMoney.
  destruct (currentWeek prev + 1 >? 4); cbn; [|reflexivity].
  destruct (getMonth (currentDate prev) =? 11); cbn.
  - destruct (runAwardsSeason _ _ prev) eqn:E; cbn.
    + now rewrite Qplus_0_r.
    + reflexivity.
  - now rewrite Qplus_0_r.
Qed.

End AdvanceTimeFields.

(** ** Monthly settlement *)

Lemma find_by_id_NoDup (l : list Song) (s : Song) :
  NoDup (map song_id l) -> In s l ->
  find (fun x => String.eqb (song_id x) (song_id s)) l = Some s.
Proof.
  induction l as [|x l IH]; intros ND Hin; [contradiction|].
  cbn in ND. inversion ND as [|? ? Hnot ND']; subst. cbn.
  destruct (String.eqb (song_id x) (song_id s)) eqn:E.
  - apply String.eqb_eq in E. destruct Hin as [->|Hin]; [reflexivity|].
    exfalso. apply Hnot. rewrite E. now apply in_map.
  - destruct Hin as [->|Hin].
    + rewrite String.eqb_refl in E. discriminate.
    + now apply IH.
Qed.

Lemma streamDelta_updateSong (prevSongs : list Song) (p : Player) (rate rnd : Q)
                             (song : Song) :
  NoDup (map song_id prevSongs) -> In song prevSongs ->
  streamDelta prevSongs (updateSong p rate rnd song) = finalWeeklyGain p song rnd.
Proof.
  intros ND Hin. unfold streamDelta. cbn [updateSong withStreams song_id streams].
  rewrite (find_by_id_NoDup _ _ ND Hin), orElse_zero. lia.
Qed.

Lemma monthlyActivity_weeklyGains_from (prevSongs : list Song) (p : Player)
                                       (rate : Q) (rolls : nat -> Q) :
  NoDup (map song_id prevSongs) ->
  forall (l : list Song) (i : nat) (acc : Z),
    incl l prevSongs ->
    fold_left (fun a song => a + streamDelta prevSongs song)
              (mapi_from (fun i song => updateSong p rate (rolls i) song) i l) acc
    = acc + weeklyGains p rolls i l.
Proof.
  intros ND. induction l as [|song l IH]; intros i acc Hincl; cbn.
  - lia.
  - rewrite IH by (intros x Hx; apply Hincl; now right).
    rewrite streamDelta_updateSong by (auto; apply Hincl; now left).
    lia.
Qed.

Lemma monthlyActivity_weeklyGains (p : Player) (rate : Q) (rolls : nat -> Q)
                                  (l : list Song) :
  NoDup (map song_id l) ->
  monthlyActivity l (updateSongs p rate rolls l) = weeklyGains p rolls 0 l.
Proof.
  intros ND. unfold monthlyActivity, updateSongs.
  rewrite monthlyActivity_weeklyGains_from by (auto using incl_refl).
  lia.
Qed.

Lemma sumZ_from (l : list Z) (acc : Z) : fold_left Z.add l acc = acc + sumZ l.
Proof.
  unfold sumZ. revert acc. induction l as [|x l IH]; intros acc; cbn.
  - lia.
  - rewrite IH, (IH x). lia.
Qed.

Lemma sumZ_cons (x : Z) (l : list Z) : sumZ (x :: l) = x + sumZ l.
Proof.
  unfold sumZ at 1. cbn. now rewrite sumZ_from.
Qed.

Lemma streams_updateSongs_from (p : Player) (rate : Q) (rolls : nat -> Q)
                               (l : list Song) (i : nat) :
  sumZ (map streams (mapi_from (fun i song => updateSong p rate (rolls i) song) i l))
  = sumZ (map streams l) + weeklyGains p rolls i l.
Proof.
  revert i. induction l as [|song l IH]; intros i;
    cbn [map mapi_from weeklyGains].
  - unfold sumZ. cbn. lia.
  - rewrite !sumZ_cons, IH. cbn [updateSong withStreams streams]. lia.
Qed.

Lemma labelShare_found (LABELS : list Label) (lid : option string) (l : Label) :
  findLabel LABELS lid = Some l -> revenueSplit l <> 0 ->
  (labelShare LABELS lid == inject_Z (revenueSplit l) / 100)%Q.
Proof.
  intros F NZ. unfold labelShare, orElse. rewrite F.
  apply Z.eqb_neq in NZ. rewrite NZ. reflexivity.
Qed.

Lemma labelShare_missing (LABELS : list Label) (lid : option string) :
  findLabel LABELS lid = None -> (labelShare LABELS lid == 1)%Q.
Proof.
  intros F. unfold labelShare, orElse. rewrite F. reflexivity.
Qed.

(** C1, as the code has it.  On a monthly settlement the money grows by
    the award money of that call plus monthlyActivity * currentRate *
    labelShare, where monthlyActivity is the sum of the stream gains that
    this very call applies to the released songs (the gains of the earlier
    weeks of the month are not part of it), currentRate is the rate at the
    fans before the call, and labelShare is revenueSplit/100 of the
    player's label when the table has it with a non-zero split and 100%
    when the table does not have it.  Song ids are taken to be distinct. *)
Theorem advanceTime_settlement_royalties
    (LABELS : list Label) (pendingAwards : option (list Award))
    (e : AdvanceEnv) (prev : GameState) :
  rollsOver prev = true ->
  NoDup (map song_id (songs prev)) ->
  let next := nextState (advanceTime LABELS pendingAwards e prev) in
  let monthlyActivity := weeklyGains (player prev) (streamRoll e) 0 (songs prev) in
  let currentRate := getStreamRate (fans (player prev)) in
  let share := labelShare LABELS (labelId (player prev)) in
  (money (player next) ==
   money (player prev) + inject_Z (awardMoney e prev)
   + inject_Z monthlyActivity * currentRate * share)%Q
  /\ sumZ (map streams (songs next)) - sumZ (map streams (songs prev))
     = monthlyActivity
  /\ (forall l, findLabel LABELS (labelId (player prev)) = Some l ->
                revenueSplit l <> 0 ->
                (share == inject_Z (revenueSplit l) / 100)%Q)
  /\ (findLabel LABELS (labelId (player prev)) = None -> (share == 1)%Q).
Proof.
  intros Hroll ND next monthlyActivity currentRate share.
  repeat split.
  - subst next. rewrite advanceTime_money, Hroll.
    rewrite monthlyActivity_weeklyGains by exact ND. reflexivity.
  - subst next. rewrite advanceTime_songs. unfold updateSongs.
    rewrite streams_updateSongs_from. subst monthlyActivity. lia.
  - intros l. apply labelShare_found.
  - apply labelShare_missing.
Qed.

Lemma advanceTime_settlement_royalties_witness :
  let prev := advanceMany SAMPLE_LABELS (quietCalls 3) oneSongState in
  let next := nextState (advanceTime SAMPLE_LABELS None quietEnv prev) in
  rollsOver prev = true
  /\ NoDup (map song_id (songs prev))
  /\ (money (player next) ==
      money (player prev) + inject_Z (awardMoney quietEnv prev)
      + inject_Z (weeklyGains (player prev) (streamRoll quietEnv) 0 (songs prev))
        * getStreamRate (fans (player prev))
        * labelShare SAMPLE_LABELS (labelId (player prev)))%Q.
Proof.
  intros prev next.
  assert (Hroll : rollsOver prev = true) by reflexivity.
  assert (ND : NoDup (map song_id (songs prev))).
  { cbn. constructor; [intros []|constructor]. }
  split; [exact Hroll|split; [exact ND|]].
  exact (proj1 (advanceTime_settlement_royalties SAMPLE_LABELS None quietEnv prev
                  Hroll ND)).
Defined.

(** The claim C1 read literally fails: in a month of four calls, each of
    which adds one stream to the only song, the four weekly gains sum to 4,
    but the settlement pays for 1 stream, the gain of its own call. *)
Lemma settlement_pays_last_week_only :
  let month := advanceTrace SAMPLE_LABELS (quietCalls 4) oneSongState in
  let before := advanceMany SAMPLE_LABELS (quietCalls 3) oneSongState in
  let after := advanceMany SAMPLE_LABELS (quietCalls 4) oneSongState in
  let currentRate := getStreamRate (fans (player before)) in
  let share := labelShare SAMPLE_LABELS (labelId (player before)) in
  map settled month = [false; false; false; true]
  /\ map (fun r => map streams (songs (nextState r))) month = [[1]; [2]; [3]; [4]]
  /\ map streams (songs oneSongState) = [0]
  /\ (money (player after) - money (player before) == 1 * currentRate * share)%Q
  /\ ~ (money (player after) - money (player before) == 4 * currentRate * share)%Q.
Proof.
  repeat split; try reflexivity.
  vm_compute. discriminate.
Qed.

(** ** The first month of a career *)

(** C2, as the code has it.  From the state of a new career (week 0) the
    first four calls of [advanceTime] take the week counter to 1, 2, 3, 4
    and apply the weekly updates only (fans grow by floor(1%), the
    trending topics stay); the fifth call is the first settlement: the
    counter rolls from 4 back to 1, the trending topics are replaced by the
    service's list and the fans grow by floor(5%) on that call only. *)
Theorem first_settlement_at_fifth_call
    (LABELS : list Label)
    (c1 c2 c3 c4 c5 : option (list Award) * AdvanceEnv)
    (playerName stage : string) (g : Genre) :
  let start := initialState playerName stage g in
  let calls := advanceTrace LABELS [c1; c2; c3; c4; c5] start in
  map settled calls = [false; false; false; false; true]
  /\ map (fun r => currentWeek (nextState r)) calls = [1; 2; 3; 4; 1]
  /\ map (fun r => fans (player (nextState r))) calls
     = [ 100 + Qfloor (100 * 0.01)%Q; 101 + Qfloor (101 * 0.01)%Q;
         102 + Qfloor (102 * 0.01)%Q; 103 + Qfloor (103 * 0.01)%Q;
         104 + Qfloor (104 * 0.05)%Q ]
  /\ map (fun r => trendingTopics (nextState r)) calls
     = [ trendingTopics start; trendingTopics start; trendingTopics start;
         trendingTopics start; generateTrendingTopics (trendingReply (snd c5)) ].
Proof.
  destruct c1 as [p1 e1], c2 as [p2 e2], c3 as [p3 e3], c4 as [p4 e4],
           c5 as [p5 e5].
  cbv zeta. cbn [advanceTrace map snd].
  rewrite !advanceTime_settled, !advanceTime_currentWeek, !advanceTime_fans,
          !advanceTime_trendingTopics.
  repeat split.
Qed.

(** The claim C2 read literally fails: four calls from week 0 reach week 4
    without any settlement; the trending topics are those of the start and
    the fans have grown by 1 four times. *)
Lemma four_calls_from_week_zero_do_not_settle :
  let start := initialState "Ada" "ADA" POP in
  let calls := advanceTrace SAMPLE_LABELS (quietCalls 4) start in
  map settled calls = [false; false; false; false]
  /\ map (fun r => currentWeek (nextState r)) calls = [1; 2; 3; 4]
  /\ map (fun r => fans (player (nextState r))) calls = [101; 102; 103; 104]
  /\ map (fun r => trendingTopics (nextState r)) calls
     = [ trendingTopics start; trendingTopics start; trendingTopics start;
         trendingTopics start ].
Proof.
  repeat split.
Qed.

(** ** Award season *)

Section SortByQuality.







End SortByQuality.






(** ** Mastering *)

Lemma sumQ_nonneg_from (l : list Q) (acc : Q) :
  (0 <= acc)%Q -> Forall (fun x => 0 <= x)%Q l -> (0 <= fold_left Qplus l acc)%Q.
Proof.
  revert acc. induction l as [|x l IH]; intros acc Hacc Hl; cbn; [exact Hacc|].
  inversion Hl as [|? ? Hx Hl']; subst.
  apply IH; [|exact Hl'].
  rewrite <- (Qplus_0_r 0). now apply Qplus_le_compat.
Qed.

Lemma sumQ_nonneg (l : list Q) :
  Forall (fun x => 0 <= x)%Q l -> (0 <= sumQ l)%Q.
Proof.
  apply sumQ_nonneg_from. apply Qle_refl.
Qed.

Lemma Qdiv_nonneg (a b : Q) : (0 <= a)%Q -> (0 <= b)%Q -> (0 <= a / b)%Q.
Proof.
  intros Ha Hb. unfold Qdiv. apply Qmult_le_0_compat; [exact Ha|].
  now apply Qinv_le_0_compat.
Qed.

(** Every tap scores between 0 and 100 wherever the slider stands. *)
Lemma tapScore_bounds (sliderPos : Q) :
  (0 <= tapScore sliderPos)%Q /\ (tapScore sliderPos <= 100)%Q.
Proof.
  unfold tapScore. split.
  - apply Q.le_max_l.
  - apply Q.max_lub; [discriminate|].
    pose proof (Qabs_nonneg (50 - sliderPos)). lra.
Qed.

Lemma featureBonus_nonneg (REAL_ARTISTS_DATA : list RealArtist) (n : string)
                          (artist : RealArtist) :
  Forall (fun a => 0 <= artist_fame a) REAL_ARTISTS_DATA ->
  findArtist REAL_ARTISTS_DATA n = Some artist ->
  (0 <= Qmin 20 (inject_Z (artist_fame artist) / 500000))%Q.
Proof.
  intros Hall Hfind. apply find_some in Hfind. destruct Hfind as [Hin _].
  rewrite Forall_forall in Hall. specialize (Hall _ Hin).
  apply Q.min_glb; [discriminate|].
  apply Qdiv_nonneg; [now apply inject_Z_nonneg|discriminate].
Qed.

Lemma rawQuality_nonneg (REAL_ARTISTS_DATA : list RealArtist) (k : Skills)
                        (draftForm : DraftForm) (miniGameScore : list Q) (rnd : Q) :
  0 <= songwriting k -> 0 <= production k -> 0 <= vocals k ->
  Forall (fun a => 0 <= artist_fame a) REAL_ARTISTS_DATA ->
  Forall (fun x => 0 <= x)%Q miniGameScore ->
  (0 <= rnd)%Q ->
  0 <= rawQuality REAL_ARTISTS_DATA k draftForm miniGameScore rnd.
Proof.
  intros Hs Hp Hv Hart Hscore Hrnd. unfold rawQuality.
  apply Qfloor_nonneg.
  set (perf := (sumQ miniGameScore
                / inject_Z (Z.of_nat (List.length miniGameScore)))%Q).
  assert (Hperf : (0 <= perf)%Q).
  { apply Qdiv_nonneg; [now apply sumQ_nonneg|].
    apply inject_Z_nonneg. lia. }
  set (base := (inject_Z (songwriting k + production k + vocals k) / 3)%Q).
  assert (Hbase : (0 <= base)%Q).
  { apply Qdiv_nonneg; [apply inject_Z_nonneg; lia|discriminate]. }
  destruct (useGhostwriter draftForm);
    destruct (nonEmpty (feature draftForm));
    try (destruct (findArtist REAL_ARTISTS_DATA (feature draftForm))
           as [artist|] eqn:F;
         [pose proof (featureBonus_nonneg _ _ _ Hart F)|]);
    lra.
Qed.

Lemma masteredQuality_bounds (REAL_ARTISTS_DATA : list RealArtist) (k : Skills)
                             (draftForm : DraftForm) (miniGameScore : list Q)
                             (rnd : Q) :
  0 <= songwriting k -> 0 <= production k -> 0 <= vocals k ->
  Forall (fun a => 0 <= artist_fame a) REAL_ARTISTS_DATA ->
  Forall (fun x => 0 <= x)%Q miniGameScore ->
  (0 <= rnd)%Q ->
  0 <= masteredQuality REAL_ARTISTS_DATA k draftForm miniGameScore rnd <= 100.
Proof.
  intros Hs Hp Hv Hart Hscore Hrnd. unfold masteredQuality. split.
  - apply Z.min_glb; [lia|]. now apply rawQuality_nonneg.
  - apply Z.le_min_l.
Qed.

(** The scores of a session are the scores of its taps. *)
Lemma tapScores_nonneg (sliderPositions : list Q) :
  Forall (fun x => 0 <= x)%Q (map tapScore sliderPositions).
Proof.
  induction sliderPositions as [|p l IH]; cbn; constructor; [|exact IH].
  apply tapScore_bounds.
Qed.

(** C4.  The song that [saveToVault] adds to the vault has a quality
    between 0 and 100, however large the player's songwriting, production
    and vocals skills, the ghostwriter and featured-artist bonuses and the
    tap scores are.  Skills, artist fame, tap scores and the random draw
    are non-negative, and the session has recorded at least one tap. *)
Theorem saveToVault_quality_bounds
    (REAL_ARTISTS_DATA : list RealArtist) (draftForm : DraftForm)
    (miniGameScore : list Q) (activeLyrics rid : string) (rnd : Q)
    (gameState : GameState) :
  df_title draftForm <> EmptyString ->
  miniGameScore <> [] ->
  Forall (fun x => 0 <= x)%Q miniGameScore ->
  (0 <= rnd)%Q ->
  0 <= songwriting (skills (player gameState)) ->
  0 <= production (skills (player gameState)) ->
  0 <= vocals (skills (player gameState)) ->
  Forall (fun a => 0 <= artist_fame a) REAL_ARTISTS_DATA ->
  exists newSong s',
    saveToVault REAL_ARTISTS_DATA draftForm miniGameScore activeLyrics rid rnd
                gameState = Some (Committed s')
    /\ unreleasedSongs s' = newSong :: unreleasedSongs gameState
    /\ 0 <= quality newSong <= 100.
Proof.
  intros Htitle Hne Hscore Hrnd Hs Hp Hv Hart.
  unfold saveToVault, nonEmpty.
  destruct (String.eqb (df_title draftForm) EmptyString) eqn:E.
  { apply String.eqb_eq in E. contradiction. }
  cbn [negb]. destruct miniGameScore as [|x l]; [contradiction|].
  eexists. eexists. split; [reflexivity|]. split; [reflexivity|].
  cbn [quality]. now apply masteredQuality_bounds.
Qed.

Lemma saveToVault_quality_bounds_witness :
  let form := mkDraftForm "Demo" POP EmptyString true in
  let s := initialState "Ada" "ADA" POP in
  exists newSong s',
    saveToVault [] form [100; 80; 60; 90; 70]%Q "la la" "s9" (1 # 2) s
    = Some (Committed s')
    /\ unreleasedSongs s' = newSong :: unreleasedSongs s
    /\ 0 <= quality newSong <= 100.
Proof.
  intros form s.
  apply (saveToVault_quality_bounds [] form [100; 80; 60; 90; 70]%Q
           "la la" "s9" (1 # 2) s).
  - discriminate.
  - discriminate.
  - repeat constructor; discriminate.
  - discriminate.
  - cbn. lia.
  - cbn. lia.
  - cbn. lia.
  - constructor.
Defined.

(** The compact variant masters within the same bounds. *)
Lemma compact_masteredQuality_bounds (k : Skills) (miniGameScore : list Q) (rnd : Q) :
  0 <= songwriting k -> 0 <= production k -> 0 <= vocals k ->
  Forall (fun x => 0 <= x)%Q miniGameScore ->
  (0 <= rnd)%Q ->
  0 <= Compact.masteredQuality k miniGameScore rnd <= 100.
Proof.
  intros Hs Hp Hv Hscore Hrnd. unfold Compact.masteredQuality. split.
  - apply Z.min_glb; [lia|]. apply Qfloor_nonneg.
    set (perf := (sumQ miniGameScore
                  / inject_Z (Z.of_nat (List.length miniGameScore)))%Q).
    assert (Hperf : (0 <= perf)%Q).
    { apply Qdiv_nonneg; [now apply sumQ_nonneg|].
      apply inject_Z_nonneg. lia. }
    set (base := (inject_Z (songwriting k + production k + vocals k) / 3)%Q).
    assert (Hbase : (0 <= base)%Q).
    { apply Qdiv_nonneg; [apply inject_Z_nonneg; lia|discriminate]. }
    lra.
  - apply Z.le_min_l.
Qed.

(** ** Reachable states *)

Lemma slice0_length {A : Type} (n : nat) (l : list A) :
  (List.length (slice0 n l) <= n)%nat.
Proof.
  apply firstn_le_length.
Qed.

Lemma advanceTime_invariant (LABELS : list Label) (pendingAwards : option (list Award))
                            (e : AdvanceEnv) (s : GameState) :
  careerInvariant s ->
  careerInvariant (nextState (advanceTime LABELS pendingAwards e s)).
Proof.
  intros (Hlen & Hskills). unfold careerInvariant.
  rewrite advanceTime_activeOffers, advanceTime_skills.
  split; [|exact Hskills].
  destruct (rollsOver s && Qltb (offerGate e) 0.6);
    [apply slice0_length|exact Hlen].
Qed.

Lemma effect_invariant (ev : RandomEvent) (c : EventChoice) (rnd : Q)
                       (s : GameState) :
  careerInvariant s ->
  careerInvariant (stateAfter (handleEventChoice ev c rnd s) s).
Proof.
  intros (Hlen & Hsw & Hpr & Hvo). unfold careerInvariant.
  destruct ev, c; cbn; split_ifs; cbn; repeat split; auto; lia.
Qed.

Lemma step_invariant (LABELS : list Label) (REAL_ARTISTS_DATA : list RealArtist)
                     (s s' : GameState) :
  step LABELS REAL_ARTISTS_DATA s s' -> careerInvariant s -> careerInvariant s'.
Proof.
  intros St Inv. destruct St.
  - now apply advanceTime_invariant.
  - now apply effect_invariant.
  - unfold handleFanResponse. destruct (bonusType o); exact Inv.
  - unfold startRecording. split_ifs; exact Inv.
  - unfold saveToVault in H. destruct (negb _); [injection H as <-; exact Inv|].
    destruct miniGameScore; [discriminate|]. injection H as <-. exact Inv.
  - unfold produceMusicVideo. split_ifs; exact Inv.
  - unfold distributeSong. split_ifs; exact Inv.
  - unfold handlePostSocial. split_ifs; try exact Inv.
    all: destruct activePlatform; exact Inv.
  - destruct Inv as (Hlen & Hskills). split; [|exact Hskills].
    cbn. etransitivity; [apply filter_length_le|exact Hlen].
  - exact Inv.
Qed.

Lemma reachable_invariant (LABELS : list Label) (REAL_ARTISTS_DATA : list RealArtist)
                          (s : GameState) :
  reachable LABELS REAL_ARTISTS_DATA s -> careerInvariant s.
Proof.
  induction 1 as [playerName stage g|s s' _ IH St].
  - unfold careerInvariant. cbn. repeat split; lia.
  - exact (step_invariant _ _ _ _ St IH).
Qed.

Lemma reachable_advanceMany (LABELS : list Label) (REAL_ARTISTS_DATA : list RealArtist)
                            (inputs : list (option (list Award) * AdvanceEnv))
                            (s : GameState) :
  reachable LABELS REAL_ARTISTS_DATA s ->
  reachable LABELS REAL_ARTISTS_DATA (advanceMany LABELS inputs s).
Proof.
  revert s. induction inputs as [|[pendingAwards e] rest IH]; intros s R; cbn.
  - exact R.
  - apply IH. eapply reachable_step; [exact R|]. constructor.
Qed.

(** ** Sponsored offers *)

(** C6.  In every state a career can reach, at most three sponsored offers
    are active.  A rollover that is granted an offer keeps the first three
    of the new offer followed by the old ones: of three active offers
    (newest first) the last, which is the oldest, is dropped. *)
Theorem activeOffers_window
    (LABELS : list Label) (REAL_ARTISTS_DATA : list RealArtist) (s : GameState) :
  reachable LABELS REAL_ARTISTS_DATA s ->
  (List.length (activeOffers s) <= 3)%nat
  /\ forall (pendingAwards : option (list Award)) (e : AdvanceEnv),
       let offer := generateSponsoredOffer (offerReply e) (offerRid e) in
       let next := nextState (advanceTime LABELS pendingAwards e s) in
       rollsOver s = true -> (offerGate e < 0.6)%Q ->
       activeOffers next = slice0 3 (offer :: activeOffers s)
       /\ forall newest middle oldest,
            activeOffers s = [newest; middle; oldest] ->
            activeOffers next = [offer; newest; middle].
Proof.
  intros R. split; [exact (proj1 (reachable_invariant _ _ _ R))|].
  intros pendingAwards e offer next Hroll Hgate.
  assert (E : activeOffers next = slice0 3 (offer :: activeOffers s)).
  { subst next. rewrite advanceTime_activeOffers, Hroll.
    apply Qltb_lt in Hgate. now rewrite Hgate. }
  split; [exact E|].
  intros newest middle oldest Hfull. rewrite E, Hfull. reflexivity.
Qed.

Lemma activeOffers_window_witness :
  let s := advanceMany SAMPLE_LABELS (quietCalls 16) (initialState "Ada" "ADA" POP) in
  let next := nextState (advanceTime SAMPLE_LABELS None fizzEnv s) in
  activeOffers s = [FALLBACK_OFFER; FALLBACK_OFFER; FALLBACK_OFFER]
  /\ (List.length (activeOffers s) <= 3)%nat
  /\ activeOffers next
     = [generateSponsoredOffer (Answered fizzOffer) "r17";
        FALLBACK_OFFER; FALLBACK_OFFER].
Proof.
  intros s next.
  assert (R : reachable SAMPLE_LABELS [] s).
  { apply reachable_advanceMany. constructor. }
  destruct (activeOffers_window SAMPLE_LABELS [] s R) as [Hlen Hroll].
  split; [reflexivity|]. split; [exact Hlen|].
  destruct (Hroll None fizzEnv eq_refl eq_refl) as [_ Hevict].
  exact (Hevict _ _ _ eq_refl).
Defined.

(** The compact variant keeps the same window. *)
Lemma compact_advanceTime_activeOffers (LABELS : list Label) (e : AdvanceEnv)
                                       (prev : GameState) :
  (List.length (activeOffers prev) <= 3)%nat ->
  (List.length (activeOffers (nextState (Compact.advanceTime LABELS e prev))) <= 3)%nat.
Proof.
  intros Hlen. unfold Compact.advanceTime.
  destruct (currentWeek prev + 1 >? 4); cbn -[slice0]; [|exact Hlen].
  destruct (Qltb (offerGate e) 0.6); [apply slice0_length|exact Hlen].
Qed.

(** What accepting a deal does: the payout is credited, the charisma is
    lowered by the penalty and not below 0, and no offer with the deal's id
    stays active; the list shrinks by the number of offers that carry that
    id, which is one when the id is carried by one offer only. *)
Lemma handleAcceptDeal_effect (pe : PostEnv) (activePlatform : SocialPlatform)
                              (deal : SponsoredOffer) (s : GameState) :
  exists s',
    handleAcceptDeal pe activePlatform deal s s = Committed s'
    /\ (money (player s') == money (player s) + payout deal)%Q
    /\ charisma (skills (player s'))
       = Z.max 0 (charisma (skills (player s)) - charismaPenalty deal)
    /\ 0 <= charisma (skills (player s'))
    /\ (forall o, In o (activeOffers s') -> offer_id o <> offer_id deal)
    /\ (List.length (activeOffers s') + offersWithId deal (activeOffers s)
        = List.length (activeOffers s))%nat.
Proof.
  eexists. split; [reflexivity|]. cbn.
  split; [reflexivity|]. split; [reflexivity|]. split; [lia|]. split.
  - intros o Ho. apply filter_In in Ho. destruct Ho as [_ Ho].
    apply negb_true_iff in Ho. now apply String.eqb_neq in Ho.
  - unfold offersWithId.
    rewrite Nat.add_comm.
    apply (filter_length (fun o => String.eqb (offer_id o) (offer_id deal))).
Qed.

Lemma compact_handleAcceptDeal_effect (pe : PostEnv)
                                      (engagementReply : Reply (list Comment))
                                      (deal : SponsoredOffer) (s : GameState) :
  exists s',
    Compact.handleAcceptDeal pe engagementReply deal s = Committed s'
    /\ (money (player s') == money (player s) + payout deal)%Q
    /\ charisma (skills (player s'))
       = Z.max 0 (charisma (skills (player s)) - charismaPenalty deal)
    /\ (List.length (activeOffers s') + offersWithId deal (activeOffers s)
        = List.length (activeOffers s))%nat.
Proof.
  eexists. split; [reflexivity|]. cbn.
  split; [reflexivity|]. split; [reflexivity|].
  unfold offersWithId. rewrite Nat.add_comm.
  apply (filter_length (fun o => String.eqb (offer_id o) (offer_id deal))).
Qed.

(** C7 fails on the code.  After two rollovers at which the service was
    down, a career holds two offers that both carry the id of the fixed
    fall-back offer; accepting one of them credits one payout, lowers the
    charisma, and removes both: the list shrinks from 2 to 0, not by 1. *)
Theorem accepting_fallback_offer_removes_both :
  let s := advanceMany SAMPLE_LABELS (quietCalls 9) (initialState "Ada" "ADA" POP) in
  let s' := stateAfter (handleAcceptDeal samplePostEnv Instagram FALLBACK_OFFER s s) s in
  reachable SAMPLE_LABELS [] s
  /\ activeOffers s = [FALLBACK_OFFER; FALLBACK_OFFER]
  /\ In FALLBACK_OFFER (activeOffers s)
  /\ (money (player s') == money (player s) + payout FALLBACK_OFFER)%Q
  /\ charisma (skills (player s')) = 37
  /\ activeOffers s' = []
  /\ List.length (activeOffers s') <> (List.length (activeOffers s) - 1)%nat.
Proof.
  intros s s'. split.
  - apply reachable_advanceMany. constructor.
  - repeat split; try reflexivity.
    + now left.
    + discriminate.
Qed.

(** ** Actions that cost money *)

(** C8.  Starting a recording session, distributing a song and producing
    a music video compare the player's money with the cost of the action.
    With less money than the cost the handler answers with a notification
    and the career state is the one before; otherwise it commits one new
    state, in which the cost has been paid. *)
Theorem costly_actions_check_funds
    (REAL_ARTISTS_DATA : list RealArtist)
    (draftForm : DraftForm) (sessionCosts : SessionCosts)
    (pe : PostEnv) (thumb : Reply string) (impactReply : Reply SongImpact)
    (newsReply : Reply string) (song : Song) (platform : SocialPlatform)
    (s : GameState) :
  let m := money (player s) in
  let sessionCost :=
    inject_Z (totalSessionCost REAL_ARTISTS_DATA draftForm sessionCosts) in
  let releaseCost := inject_Z (distributionCost platform) in
  let videoCost := 15000%Q in
  let session := startRecording REAL_ARTISTS_DATA draftForm sessionCosts s s in
  let release :=
    distributeSong pe thumb impactReply newsReply song platform s s in
  let video := produceMusicVideo pe thumb song s s in
  ((m < sessionCost)%Q ->
     (exists notification, session = Rejected notification)
     /\ stateAfter session s = s)
  /\ (~ (m < sessionCost)%Q ->
     exists s', session = Committed s' /\ stateAfter session s = s'
                /\ (money (player s') == m - sessionCost)%Q)
  /\ ((m < releaseCost)%Q ->
     (exists notification, release = Rejected notification)
     /\ stateAfter release s = s)
  /\ (~ (m < releaseCost)%Q ->
     exists s', release = Committed s' /\ stateAfter release s = s'
                /\ (money (player s') == m - releaseCost)%Q)
  /\ ((m < videoCost)%Q ->
     (exists notification, video = Rejected notification)
     /\ stateAfter video s = s)
  /\ (~ (m < videoCost)%Q ->
     exists s', video = Committed s' /\ stateAfter video s = s'
                /\ (money (player s') == m - videoCost)%Q).
Proof.
  intros m sessionCost releaseCost videoCost session release video.
  assert (Hyes : forall c, (m < c)%Q -> Qltb m c = true)
    by (intros c; apply Qltb_lt).
  assert (Hno : forall c, ~ (m < c)%Q -> Qltb m c = false).
  { intros c H. destruct (Qltb m c) eqn:E; [|reflexivity].
    apply Qltb_lt in E. contradiction. }
  subst session release video. unfold startRecording, distributeSong,
    produceMusicVideo. fold m sessionCost releaseCost.
  change (inject_Z 15000) with videoCost.
  repeat split.
  - rewrite (Hyes _ H). eauto.
  - now rewrite (Hyes _ H).
  - intros H. rewrite (Hno _ H). eexists. repeat split; reflexivity.
  - rewrite (Hyes _ H). eauto.
  - now rewrite (Hyes _ H).
  - intros H. rewrite (Hno _ H). eexists. repeat split; reflexivity.
  - rewrite (Hyes _ H). eauto.
  - now rewrite (Hyes _ H).
  - intros H. rewrite (Hno _ H). eexists. repeat split; reflexivity.
Qed.

Lemma costly_actions_check_funds_witness :
  let poor := initialState "Ada" "ADA" POP in
  let form := mkDraftForm "Demo" POP EmptyString true in
  let costs := mkSessionCosts 600 6000 in
  let release s :=
    distributeSong samplePostEnv Failed Failed Failed (sampleSong 50) YouTube s s in
  (exists notification,
      startRecording [] form costs poor poor = Rejected notification)
  /\ stateAfter (release poor) poor = poor
  /\ (exists s', release richState = Committed s'
                 /\ stateAfter (release richState) richState = s'
                 /\ (money (player s') == 20000 - 15000)%Q).
Proof.
  intros poor form costs release.
  pose proof (costly_actions_check_funds [] form costs samplePostEnv Failed
                Failed Failed (sampleSong 50) YouTube poor) as P.
  pose proof (costly_actions_check_funds [] form costs samplePostEnv Failed
                Failed Failed (sampleSong 50) YouTube richState) as R.
  cbv zeta in P, R.
  destruct P as (Psession & _ & Prelease & _).
  destruct R as (_ & _ & _ & Rrelease & _).
  split; [exact (proj1 (Psession eq_refl))|].
  split; [exact (proj2 (Prelease eq_refl))|].
  apply Rrelease. discriminate.
Defined.

(** ** Distribution *)

(** C9, as the code has it.  With the funds for either release, a release
    on YouTube adds twice the estimated fan gain to the fans and quality *
    2000 to the fame; a release on another platform adds the estimated fan
    gain and quality * 1000: YouTube doubles the fan gain and doubles the
    fame gain.  The fame gain is the quality times the platform's
    multiplier whatever the service answered. *)
Theorem distributeSong_platform_gains
    (pe : PostEnv) (thumb : Reply string) (impactReply : Reply SongImpact)
    (newsReply : Reply string) (song : Song) (platform : SocialPlatform)
    (s : GameState) :
  (15000 <= money (player s))%Q ->
  platform <> YouTube ->
  let estimate :=
    fanGain (calculateSongImpact impactReply (quality song) (fans (player s))) in
  let video :=
    stateAfter (distributeSong pe thumb impactReply newsReply song YouTube s s) s in
  let baseline :=
    stateAfter (distributeSong pe thumb impactReply newsReply song platform s s) s in
  fans (player video) - fans (player s) = 2 * estimate
  /\ fans (player baseline) - fans (player s) = estimate
  /\ fame (player video) - fame (player s) = quality song * 2000
  /\ fame (player baseline) - fame (player s) = quality song * 1000
  /\ fame (player video) - fame (player s)
     = 2 * (fame (player baseline) - fame (player s)).
Proof.
  intros Hfunds Hplat estimate video baseline.
  assert (Hv : Qltb (money (player s)) (inject_Z (distributionCost YouTube)) = false).
  { apply Qltb_ge. exact Hfunds. }
  assert (Hb : Qltb (money (player s)) (inject_Z (distributionCost platform)) = false).
  { apply Qltb_ge.
    destruct platform; try congruence;
      change (250 <= money (player s))%Q; lra. }
  assert (Hp : SocialPlatform_eqb platform YouTube = false).
  { destruct platform; try reflexivity. congruence. }
  subst video baseline. unfold distributeSong. rewrite Hv, Hb.
  cbn [stateAfter player fans fame].
  unfold distributionFans, distributionFame. rewrite Hp. cbn [SocialPlatform_eqb].
  fold estimate. repeat split; lia.
Qed.

Lemma distributeSong_platform_gains_witness :
  let reply := Answered (mkSongImpact 100 "A hit.") in
  let release platform :=
    stateAfter (distributeSong samplePostEnv Failed reply Failed (sampleSong 50)
                               platform richState richState) richState in
  (15000 <= money (player richState))%Q
  /\ Spotify <> YouTube
  /\ fans (player (release YouTube)) - fans (player richState) = 2 * 100
  /\ fame (player (release YouTube)) - fame (player richState)
     = 2 * (fame (player (release Spotify)) - fame (player richState)).
Proof.
  intros reply release.
  assert (Hfunds : (15000 <= money (player richState))%Q) by discriminate.
  assert (Hplat : Spotify <> YouTube) by discriminate.
  destruct (distributeSong_platform_gains samplePostEnv Failed reply Failed
              (sampleSong 50) Spotify richState Hfunds Hplat)
    as (Hfans & _ & _ & _ & Hfame).
  split; [exact Hfunds|]. split; [exact Hplat|]. split; [exact Hfans|exact Hfame].
Defined.

(** The claim C9 read literally fails: for a song of quality 50 the
    release on YouTube adds 100,000 fame and the release on Spotify 50,000:
    twice as much, not four times. *)
Lemma youtube_release_does_not_quadruple_fame :
  let reply := Answered (mkSongImpact 100 "A hit.") in
  let release platform :=
    stateAfter (distributeSong samplePostEnv Failed reply Failed (sampleSong 50)
                               platform richState richState) richState in
  let gain platform := fame (player (release platform)) - fame (player richState) in
  fans (player (release YouTube)) - fans (player richState)
  = 2 * (fans (player (release Spotify)) - fans (player richState))
  /\ gain YouTube = 100000
  /\ gain Spotify = 50000
  /\ gain YouTube <> 4 * gain Spotify.
Proof.
  repeat split. discriminate.
Qed.

(** ** Mastering in a career *)

(** In every state a career can reach, whatever taps the session recorded,
    the mastered quality is between 0 and 100. *)
Lemma reachable_masteredQuality_bounds
    (LABELS : list Label) (REAL_ARTISTS_DATA : list RealArtist) (s : GameState)
    (draftForm : DraftForm) (sliderPositions : list Q) (rnd : Q) :
  reachable LABELS REAL_ARTISTS_DATA s ->
  Forall (fun a => 0 <= artist_fame a) REAL_ARTISTS_DATA ->
  (0 <= rnd)%Q ->
  0 <= masteredQuality REAL_ARTISTS_DATA (skills (player s)) draftForm
         (map tapScore sliderPositions) rnd <= 100.
Proof.
  intros R Hart Hrnd.
  destruct (reachable_invariant _ _ _ R) as (_ & Hs & Hp & Hv).
  apply masteredQuality_bounds; auto using tapScores_nonneg.
Qed.

(** ** The compact variant *)

Lemma compact_updateSong_same (p : Player) (rate rnd : Q) (song : Song) :
  Compact.updateSong p rate rnd song = updateSong p rate rnd song.
Proof.
  reflexivity.
Qed.

(** The settlement of the compact variant pays the same royalties. *)
Lemma compact_advanceTime_money (LABELS : list Label) (e : AdvanceEnv)
                                (prev : GameState) :
  rollsOver prev = true ->
  NoDup (map song_id (songs prev)) ->
  (money (player (nextState (Compact.advanceTime LABELS e prev))) ==
   money (player prev) + inject_Z (Compact.awardMoney e prev)
   + inject_Z (weeklyGains (player prev) (streamRoll e) 0 (songs prev))
     * getStreamRate (fans (player prev))
     * labelShare LABELS (labelId (player prev)))%Q.
Proof.
  intros Hroll ND. unfold rollsOver in Hroll.
  unfold Compact.advanceTime, Compact.awardMoney. rewrite Hroll.
  change (mapi_from
            (fun i song =>
               Compact.updateSong (player prev) (getStreamRate (fans (player prev)))
                                  (streamRoll e i) song) 0 (songs prev))
    with (updateSongs (player prev) (getStreamRate (fans (player prev)))
                      (streamRoll e) (songs prev)).
  rewrite monthlyActivity_weeklyGains by exact ND.
  destruct (getMonth (nextMonth (currentDate prev)) =? 0); cbn.
  - destruct (Compact.runAwardsSeason _ prev); cbn.
    + now rewrite Qplus_0_r.
    + reflexivity.
  - now rewrite Qplus_0_r.
Qed.

(** The first month of the compact variant has five calls too. *)
Lemma compact_first_settlement_at_fifth_call
    (LABELS : list Label) (e1 e2 e3 e4 e5 : AdvanceEnv)
    (playerName stage : string) (g : Genre) :
  let start := initialState playerName stage g in
  let states := Compact.advanceStates LABELS [e1; e2; e3; e4; e5] start in
  map currentWeek states = [1; 2; 3; 4; 1]
  /\ map (fun s => fans (player s)) states = [101; 102; 103; 104; 109]
  /\ map trendingTopics states
     = [ trendingTopics start; trendingTopics start; trendingTopics start;
         trendingTopics start; generateTrendingTopics (trendingReply e5) ].
Proof.
  repeat split.
Qed.

(** The compact variant awards the album category on the same condition
    and has no artist category. *)
Lemma compact_runAwardsSeason_album (sfx1 sfx2 : string) (state : GameState) :
  Compact.runAwardsSeason sfx1 state
  = filter (fun a => String.eqb (category a) "Album of the Year")
           (runAwardsSeason sfx1 sfx2 state).
Proof.
  unfold Compact.runAwardsSeason, runAwardsSeason.
  destruct ((fans (player state) >? 1000000)
            && (3 <=? Z.of_nat (List.length (songs state)))).
  - destruct (hd_error _) as [b|].
    + destruct (quality b >? 85);
        destruct (fame (player state) >? 5000000); reflexivity.
    + destruct (fame (player state) >? 5000000); reflexivity.
  - destruct (fame (player state) >? 5000000); reflexivity.
Qed.

(** * Further properties of the code *)

(** ** The recording mini-game *)

Lemma Qabs_cases (x : Q) :
  ((0 <= x)%Q /\ (Qabs x == x)%Q) \/ ((x <= 0)%Q /\ (Qabs x == - x)%Q).
Proof.
  destruct (Qlt_le_dec x 0) as [H|H].
  - right. split; [now apply Qlt_le_weak|]. apply Qabs_neg. now apply Qlt_le_weak.
  - left. split; [exact H|]. now apply Qabs_pos.
Qed.

Lemma Qfloor_bounds (a b : Z) (x : Q) :
  (inject_Z a <= x)%Q -> (x < inject_Z b)%Q -> a <= Qfloor x < b.
Proof.
  intros Ha Hb. split.
  - rewrite <- (Qfloor_Z a). now apply Qfloor_resp_le.
  - rewrite Zlt_Qlt. eapply Qle_lt_trans; [apply Qfloor_le|exact Hb].
Qed.

(** X1.  A tap scores between 0 and 100 wherever the slider stands; it
    scores 100 exactly at position 50, 0 at both ends of the track and
    beyond, the same at equal distances left and right of the centre, and
    100 - 2 * |50 - position| on the track. *)
Theorem tapScore_profile :
  (forall p, (0 <= tapScore p <= 100)%Q)
  /\ (forall p, (tapScore p == 100)%Q <-> (p == 50)%Q)
  /\ (forall p, (p <= 0)%Q \/ (100 <= p)%Q -> (tapScore p == 0)%Q)
  /\ (forall d, (tapScore (50 + d) == tapScore (50 - d))%Q)
  /\ (forall p, (0 <= p <= 100)%Q ->
                (tapScore p == 100 - Qabs (50 - p) * 2)%Q).
Proof.
  assert (cases : forall p,
            let a := Qabs (50 - p) in
            let m := Qmax 0 (100 - a * 2) in
            (((0 <= 50 - p)%Q /\ (a == 50 - p)%Q)
             \/ ((50 - p <= 0)%Q /\ (a == - (50 - p))%Q))
            /\ (((0 < 100 - a * 2)%Q /\ (m == 100 - a * 2)%Q)
                \/ ((100 - a * 2 <= 0)%Q /\ (m == 0)%Q))).
  { intros p a m. split; [apply Qabs_cases|apply Q.max_spec]. }
  split; [exact tapScore_bounds|].
  split; [|split; [|split]].
  - intros p. unfold tapScore. destruct (cases p) as [[[? A]|[? A]] [[? E]|[? E]]];
      cbv zeta in *; split; intros; lra.
  - intros p H. unfold tapScore.
    destruct (cases p) as [[[? A]|[? A]] [[? E]|[? E]]]; cbv zeta in *; lra.
  - intros d. unfold tapScore.
    destruct (cases (50 + d)%Q) as [[[? A]|[? A]] [[? E]|[? E]]];
      destruct (cases (50 - d)%Q) as [[[? A']|[? A']] [[? E']|[? E']]];
      cbv zeta in *; lra.
  - intros p [H0 H1]. unfold tapScore.
    destruct (cases p) as [[[? A]|[? A]] [[? E]|[? E]]]; cbv zeta in *; lra.
Qed.

Lemma tapScore_profile_witness :
  (tapScore 50 == 100)%Q /\ (tapScore 100 == 0)%Q
  /\ (tapScore 30 == 100 - Qabs (50 - 30) * 2)%Q.
Proof.
  destruct tapScore_profile as (_ & Hcentre & Hends & _ & Htrack).
  split; [apply Hcentre; reflexivity|].
  split; [apply Hends; right; discriminate|].
  apply Htrack. split; discriminate.
Defined.

(** X2.  After an animation frame the slider is on the track, between 0
    and 100, whatever its position, direction and speed were; a frame that
    would pass 100 stops at 100 and turns the slider back, a frame that
    would pass 0 stops at 0 and turns it forward, and a direction of 1 or
    -1 stays one of the two. *)
Theorem updateSlider_stays_on_track (taps : nat) (sliderDir : Z) (prev : Q) :
  let speed := (2.5 + inject_Z (Z.of_nat taps) * 0.5)%Q in
  let next := (prev + inject_Z sliderDir * speed)%Q in
  let frame := updateSlider taps sliderDir prev in
  (0 <= fst frame <= 100)%Q
  /\ ((100 < next)%Q -> frame = (100%Q, -1))
  /\ ((next < 0)%Q -> frame = (0%Q, 1))
  /\ ((0 <= next <= 100)%Q -> frame = (next, sliderDir))
  /\ (sliderDir = 1 \/ sliderDir = -1 -> snd frame = 1 \/ snd frame = -1).
Proof.
  intros speed next frame. subst frame. unfold updateSlider. fold speed next.
  destruct (Qltb 100 next) eqn:Hi; [apply Qltb_lt in Hi|apply Qltb_ge in Hi].
  - cbn. repeat split; try discriminate; intros; try lra; auto.
  - destruct (Qltb next 0) eqn:Lo; [apply Qltb_lt in Lo|apply Qltb_ge in Lo].
    + cbn. repeat split; try discriminate; intros; try lra; auto.
    + cbn. repeat split; intros; try lra; auto.
Qed.

Lemma updateSlider_stays_on_track_witness :
  updateSlider 2 1 98 = (100%Q, -1)
  /\ updateSlider 0 (-1) 1 = (0%Q, 1)
  /\ (snd (updateSlider 0 1 0) = 1 \/ snd (updateSlider 0 1 0) = -1).
Proof.
  split; [|split].
  - apply (updateSlider_stays_on_track 2 1 98). reflexivity.
  - apply (updateSlider_stays_on_track 0 (-1) 1). reflexivity.
  - apply (updateSlider_stays_on_track 0 1 0). now left.
Defined.

(** ** Session prices *)



(** X4.  A featured name that the artist table does not list costs
    nothing and adds no quality: the session is priced and mastered as one
    without a feature.  A listed artist adds its cost to the session. *)
Theorem unknown_feature_is_free
    (REAL_ARTISTS_DATA : list RealArtist) (draftForm : DraftForm)
    (sessionCosts : SessionCosts) (k : Skills) (miniGameScore : list Q) (rnd : Q) :
  let solo := mkDraftForm (df_title draftForm) (df_genre draftForm) EmptyString
                          (useGhostwriter draftForm) in
  (findArtist REAL_ARTISTS_DATA (feature draftForm) = None ->
   totalSessionCost REAL_ARTISTS_DATA draftForm sessionCosts
   = totalSessionCost REAL_ARTISTS_DATA solo sessionCosts
   /\ masteredQuality REAL_ARTISTS_DATA k draftForm miniGameScore rnd
      = masteredQuality REAL_ARTISTS_DATA k solo miniGameScore rnd)
  /\ (forall artist,
        feature draftForm <> EmptyString ->
        findArtist REAL_ARTISTS_DATA (feature draftForm) = Some artist ->
        totalSessionCost REAL_ARTISTS_DATA draftForm sessionCosts
        = totalSessionCost REAL_ARTISTS_DATA solo sessionCosts + artist_cost artist).
Proof.
  intros solo. split.
  - intros F. unfold totalSessionCost, masteredQuality, rawQuality. cbn.
    rewrite F. destruct (nonEmpty (feature draftForm)); split; reflexivity.
  - intros artist NE F. unfold totalSessionCost. cbn. rewrite F.
    unfold nonEmpty. apply String.eqb_neq in NE. rewrite NE. reflexivity.
Qed.

Lemma unknown_feature_is_free_witness :
  let table := [mkRealArtist "Nova" 4000000 9000] in
  let costs := mkSessionCosts 500 2500 in
  totalSessionCost table (mkDraftForm "Demo" POP "Nobody" false) costs = 500
  /\ totalSessionCost table (mkDraftForm "Demo" POP "Nova" false) costs = 500 + 9000.
Proof.
  intros table costs.
  split.
  - apply (unknown_feature_is_free table (mkDraftForm "Demo" POP "Nobody" false)
             costs (mkSkills 0 0 0 0) [] 0%Q). reflexivity.
  - exact (proj2 (unknown_feature_is_free table (mkDraftForm "Demo" POP "Nova" false)
                    costs (mkSkills 0 0 0 0) [] 0%Q)
                 (mkRealArtist "Nova" 4000000 9000) ltac:(discriminate) eq_refl).
Defined.

(** ** Streams *)

Lemma Forall2_mapi_from {A B : Type} (P : A -> B -> Prop) (f : nat -> A -> B)
                        (l : list A) (i : nat) :
  (forall j x, P x (f j x)) -> Forall2 P l (mapi_from f i l).
Proof.
  intros H. revert i. induction l as [|x l IH]; intros i; cbn; constructor; auto.
Qed.

Lemma updateSongs_earn (p : Player) (rate : Q) (rolls : nat -> Q) (l : list Song) :
  Forall2 (fun old new =>
             song_id new = song_id old /\ title new = title old
             /\ quality new = quality old
             /\ streams old + 1 <= streams new
             /\ (revenue new == inject_Z (streams new) * rate)%Q)
          l (updateSongs p rate rolls l).
Proof.
  unfold updateSongs. apply Forall2_mapi_from. intros j x.
  unfold updateSong, finalWeeklyGain. cbn.
  repeat split; try reflexivity. lia.
Qed.

(** X5.  A call of [advanceTime] keeps the released songs, in their order
    and with their ids, titles and qualities; every one of them gains at
    least one stream, and its revenue becomes all its streams valued at the
    rate of the fans before the call.  The vault and the posts are not
    touched. *)
Theorem advanceTime_songs_earn
    (LABELS : list Label) (pendingAwards : option (list Award))
    (e : AdvanceEnv) (prev : GameState) :
  let next := nextState (advanceTime LABELS pendingAwards e prev) in
  Forall2 (fun old new =>
             song_id new = song_id old /\ title new = title old
             /\ quality new = quality old
             /\ streams old + 1 <= streams new
             /\ (revenue new ==
                 inject_Z (streams new) * getStreamRate (fans (player prev)))%Q)
          (songs prev) (songs next)
  /\ unreleasedSongs next = unreleasedSongs prev
  /\ socialPosts next = socialPosts prev.
Proof.
  intros next. subst next. rewrite advanceTime_songs. split.
  - apply updateSongs_earn.
  - unfold advanceTime. destruct (currentWeek prev + 1 >? 4); split; reflexivity.
Qed.




(** ** The clock of a career *)

Lemma advanceTime_currentDate (LABELS : list Label) (pendingAwards : option (list Award))
                              (e : AdvanceEnv) (prev : GameState) :
  currentDate (nextState (advanceTime LABELS pendingAwards e prev))
  = if rollsOver prev then nextMonth (currentDate prev) else currentDate prev.
Proof.
  unfold advanceTime, rollsOver.
  destruct (currentWeek prev + 1 >? 4); reflexivity.
Qed.

Lemma advanceTime_history (LABELS : list Label) (pendingAwards : option (list Award))
                          (e : AdvanceEnv) (prev : GameState) :
  let next := nextState (advanceTime LABELS pendingAwards e prev) in
  history next
  = if rollsOver prev
    then history prev
         ++ [mkHistoryPoint (Z.of_nat (List.length (history prev)))
                            (fans (player next))]
    else history prev.
Proof.
  unfold advanceTime, rollsOver.
  destruct (currentWeek prev + 1 >? 4); cbn; [|reflexivity].
  destruct (getMonth (currentDate prev) =? 11); cbn; [|reflexivity].
  destruct (0 <? _); reflexivity.
Qed.

Lemma advanceTime_news_length (LABELS : list Label)
                              (pendingAwards : option (list Award))
                              (e : AdvanceEnv) (prev : GameState) :
  (List.length (news (nextState (advanceTime LABELS pendingAwards e prev))) <= 15)%nat.
Proof.
  unfold advanceTime.
  destruct (currentWeek prev + 1 >? 4); cbn -[slice0]; apply slice0_length.
Qed.

Lemma nextMonth_monthIndex (d : Date) :
  0 <= getMonth d <= 11 ->
  monthIndex (nextMonth d) = monthIndex d + 1
  /\ 0 <= getMonth (nextMonth d) <= 11.
Proof.
  intros H. unfold nextMonth, monthIndex.
  destruct (getMonth d + 1 >? 11) eqn:E; rewrite Z.gtb_ltb in E;
    [apply Z.ltb_lt in E|apply Z.ltb_ge in E];
    cbn [getFullYear getMonth]; lia.
Qed.

Ltac frame :=
  cbn -[slice0];
  first [ repeat (split; [reflexivity|]); left; reflexivity
        | repeat (split; [reflexivity|]); right; eexists; reflexivity ].

(** A handler other than [advanceTime] leaves the clock and the chart
    alone, and either leaves the news alone or puts one headline in front
    and keeps the first fifteen. *)
Lemma step_cases (LABELS : list Label) (REAL_ARTISTS_DATA : list RealArtist)
                 (s s' : GameState) :
  step LABELS REAL_ARTISTS_DATA s s' ->
  (exists pendingAwards e, s' = nextState (advanceTime LABELS pendingAwards e s))
  \/ (currentWeek s' = currentWeek s /\ currentDate s' = currentDate s
      /\ history s' = history s
      /\ (news s' = news s \/ exists h, news s' = slice0 15 (h :: news s))).
Proof.
  intros St. destruct St.
  - left. eauto.
  - right. frame.
  - right. unfold handleFanResponse. destruct (bonusType o); frame.
  - right. unfold startRecording. split_ifs; frame.
  - right. unfold saveToVault in H.
    destruct (negb _); [injection H as <-; frame|].
    destruct miniGameScore; [discriminate|]. injection H as <-. frame.
  - right. unfold produceMusicVideo. split_ifs; frame.
  - right. unfold distributeSong. split_ifs; frame.
  - right. unfold handlePostSocial. split_ifs; try frame.
    all: destruct activePlatform; frame.
  - right. frame.
  - right. frame.
Qed.

Lemma reachable_clock (LABELS : list Label) (REAL_ARTISTS_DATA : list RealArtist)
                      (s : GameState) :
  reachable LABELS REAL_ARTISTS_DATA s ->
  0 <= currentWeek s <= 4
  /\ (List.length (news s) <= 15)%nat
  /\ map hist_month (history s)
     = map Z.of_nat (seq 0 (List.length (history s)))
  /\ 0 <= getMonth (currentDate s) <= 11
  /\ monthIndex (currentDate s) + 1
     = monthIndex (mkDate 2025 0) + Z.of_nat (List.length (history s)).
Proof.
  induction 1 as [playerName stage g|s s' _ IH St].
  - cbn. repeat split; lia.
  - destruct IH as (Hweek & Hnews & Hhist & Hmonth & Hcal).
    destruct (step_cases _ _ _ _ St) as [(pa & e & ->)|(Ew & Ed & Eh & En)].
    + rewrite advanceTime_currentWeek, advanceTime_currentDate, advanceTime_history.
      split; [|split; [apply advanceTime_news_length|]].
      * unfold rollsOver. destruct (currentWeek s + 1 >? 4) eqn:E;
          rewrite Z.gtb_ltb in E; [lia|apply Z.ltb_ge in E; lia].
      * destruct (rollsOver s); [|auto].
        destruct (nextMonth_monthIndex _ Hmonth) as [Hidx Hm].
        rewrite !length_app, !map_app, Nat.add_1_r, seq_S, map_app, Hhist.
        cbn [map hist_month List.length Nat.add]. repeat split; lia.
    + rewrite Ew, Ed, Eh. repeat split; try tauto; try lia.
      destruct En as [->|[h ->]]; [exact Hnews|apply slice0_length].
Qed.

(** X7.  In every state a career can reach the week counter is between 0
    and 4.  From such a state a call of [advanceTime] leaves it between 1
    and 4: the call rolls over exactly when the counter stands at 4, and
    then sets it to 1; otherwise it adds 1. *)
Theorem week_counter_cycle
    (LABELS : list Label) (REAL_ARTISTS_DATA : list RealArtist) (s : GameState) :
  reachable LABELS REAL_ARTISTS_DATA s ->
  0 <= currentWeek s <= 4
  /\ forall pendingAwards e,
       let next := nextState (advanceTime LABELS pendingAwards e s) in
       1 <= currentWeek next <= 4
       /\ (rollsOver s = true <-> currentWeek s = 4)
       /\ currentWeek next = (if currentWeek s =? 4 then 1 else currentWeek s + 1).
Proof.
  intros R. destruct (reachable_clock _ _ _ R) as (Hweek & _).
  split; [exact Hweek|]. intros pendingAwards e next. subst next.
  rewrite advanceTime_currentWeek. unfold rollsOver.
  destruct (currentWeek s + 1 >? 4) eqn:E; rewrite Z.gtb_ltb in E;
    [apply Z.ltb_lt in E|apply Z.ltb_ge in E];
    destruct (currentWeek s =? 4) eqn:F;
    [apply Z.eqb_eq in F|apply Z.eqb_neq in F
    |apply Z.eqb_eq in F|apply Z.eqb_neq in F];
    repeat split; intros; try lia; try discriminate.
Qed.

Lemma week_counter_cycle_witness :
  let s := advanceMany SAMPLE_LABELS (quietCalls 4) (initialState "Ada" "ADA" POP) in
  currentWeek s = 4
  /\ currentWeek (nextState (advanceTime SAMPLE_LABELS None quietEnv s)) = 1.
Proof.
  intros s.
  assert (R : reachable SAMPLE_LABELS [] s).
  { apply reachable_advanceMany. constructor. }
  destruct (week_counter_cycle SAMPLE_LABELS [] s R) as [_ H].
  destruct (H None quietEnv) as (_ & _ & Hnext).
  split; [reflexivity|exact Hnext].
Defined.

(** X8.  In every state a career can reach the news log holds at most 15
    headlines. *)
Theorem news_log_capped
    (LABELS : list Label) (REAL_ARTISTS_DATA : list RealArtist) (s : GameState) :
  reachable LABELS REAL_ARTISTS_DATA s -> (List.length (news s) <= 15)%nat.
Proof.
  intros R. exact (proj1 (proj2 (reachable_clock _ _ _ R))).
Qed.

Lemma news_log_capped_witness :
  (List.length
     (news (advanceMany SAMPLE_LABELS (quietCalls 5) (initialState "Ada" "ADA" POP)))
   <= 15)%nat.
Proof.
  apply (news_log_capped SAMPLE_LABELS []).
  apply reachable_advanceMany. constructor.
Defined.

(** X9.  In every state a career can reach the chart has one sample for
    January 2025 and one for every settlement since: its month numbers are
    0, 1, 2, ... in order, the month of the calendar is between 0 and 11,
    and the calendar stands as many months after January 2025 as the chart
    has samples after the first.  A settlement appends the sample of the
    fans it leaves. *)
Theorem history_follows_calendar
    (LABELS : list Label) (REAL_ARTISTS_DATA : list RealArtist) (s : GameState) :
  reachable LABELS REAL_ARTISTS_DATA s ->
  map hist_month (history s) = map Z.of_nat (seq 0 (List.length (history s)))
  /\ 0 <= getMonth (currentDate s) <= 11
  /\ monthIndex (currentDate s) + 1
     = monthIndex (mkDate 2025 0) + Z.of_nat (List.length (history s))
  /\ forall pendingAwards e,
       rollsOver s = true ->
       let next := nextState (advanceTime LABELS pendingAwards e s) in
       history next
       = history s ++ [mkHistoryPoint (Z.of_nat (List.length (history s)))
                                      (fans (player next))]
       /\ monthIndex (currentDate next) = monthIndex (currentDate s) + 1.
Proof.
  intros R. destruct (reachable_clock _ _ _ R) as (_ & _ & Hhist & Hmonth & Hcal).
  repeat split; try tauto; try lia.
  - rewrite advanceTime_history. now rewrite H.
  - rewrite advanceTime_currentDate, H. now apply nextMonth_monthIndex.
Qed.

Lemma history_follows_calendar_witness :
  let s := advanceMany SAMPLE_LABELS (quietCalls 9) (initialState "Ada" "ADA" POP) in
  map hist_month (history s) = [0; 1; 2]
  /\ currentDate s = mkDate 2025 2.
Proof.
  intros s.
  assert (R : reachable SAMPLE_LABELS [] s).
  { apply reachable_advanceMany. constructor. }
  destruct (history_follows_calendar SAMPLE_LABELS [] s R) as (H & _).
  split; [exact H|reflexivity].
Defined.

(** ** Career events *)

(** X10.  For a pick in [0, 1), a call of [advanceTime] opens a career
    event exactly when it rolls over, its event draw is below 0.45 and no
    award window was pending when the call started; the event is one of
    the catalog.  Awards won by the call itself do not hold the event
    back. *)
Theorem advanceTime_event_modal
    (LABELS : list Label) (pendingAwards : option (list Award))
    (e : AdvanceEnv) (prev : GameState) :
  (0 <= eventPick e < 1)%Q ->
  let r := advanceTime LABELS pendingAwards e prev in
  ((exists ev, shownEvent r = Some ev)
   <-> rollsOver prev = true /\ (eventGate e < 0.45)%Q /\ pendingAwards = None)
  /\ (forall ev, shownEvent r = Some ev -> In ev RANDOM_EVENTS)
  /\ (forall won, shownAwards r = Some won -> pendingAwards = None ->
                  (eventGate e < 0.45)%Q -> exists ev, shownEvent r = Some ev).
Proof.
  intros [L U] r.
  assert (Hidx : exists ev,
            nth_error RANDOM_EVENTS
              (Z.to_nat (Qfloor (eventPick e
                                 * inject_Z (Z.of_nat (List.length RANDOM_EVENTS))))%Q)
            = Some ev).
  { change (inject_Z (Z.of_nat (List.length RANDOM_EVENTS))) with 3%Q.
    assert (B : 0 <= Qfloor (eventPick e * 3) < 3).
    { apply Qfloor_bounds;
        [change (inject_Z 0) with 0%Q|change (inject_Z 3) with 3%Q]; lra. }
    assert (C : Qfloor (eventPick e * 3) = 0 \/ Qfloor (eventPick e * 3) = 1
                \/ Qfloor (eventPick e * 3) = 2) by lia.
    destruct C as [-> | [-> | ->] ]; eexists; reflexivity. }
  assert (Hshown : shownEvent r
                   = if rollsOver prev
                     then if Qltb (eventGate e) 0.45
                             && match pendingAwards with
                                | None => true
                                | Some _ => false
                                end
                          then nth_error RANDOM_EVENTS
                                 (Z.to_nat (Qfloor (eventPick e
                                    * inject_Z (Z.of_nat (List.length RANDOM_EVENTS))))%Q)
                          else None
                     else None).
  { subst r. unfold advanceTime, rollsOver.
    destruct (currentWeek prev + 1 >? 4); reflexivity. }
  assert (Hawards : forall won, shownAwards r = Some won -> rollsOver prev = true).
  { subst r. unfold advanceTime, rollsOver.
    destruct (currentWeek prev + 1 >? 4); [reflexivity|discriminate]. }
  assert (Hiff : (exists ev, shownEvent r = Some ev)
                 <-> rollsOver prev = true /\ (eventGate e < 0.45)%Q
                     /\ pendingAwards = None).
  { rewrite Hshown. destruct (rollsOver prev).
    - destruct (Qltb (eventGate e) 0.45) eqn:G;
        [apply Qltb_lt in G|apply Qltb_ge in G];
        destruct pendingAwards; cbn [andb]; split;
        try (intros [ev H]; discriminate H);
        try (intros (_ & H1 & H2); try discriminate H2; lra).
      + intros _. auto.
      + intros _. exact Hidx.
    - split; [intros [ev H]; discriminate H|intros [H _]; discriminate H]. }
  split; [exact Hiff|]. split.
  - intros ev. rewrite Hshown. destruct (rollsOver prev); [|discriminate].
    destruct (_ && _); [|discriminate]. apply nth_error_In.
  - intros won Hwon Hnone Hgate. apply Hiff. eauto.
Qed.

Lemma advanceTime_event_modal_witness :
  exists ev,
    shownEvent (advanceTime SAMPLE_LABELS None quietEnv decemberState) = Some ev
    /\ In ev RANDOM_EVENTS.
Proof.
  assert (P : (0 <= eventPick quietEnv < 1)%Q) by (split; discriminate || reflexivity).
  destruct (advanceTime_event_modal SAMPLE_LABELS None quietEnv decemberState P)
    as (Hiff & Hin & _).
  destruct (proj2 Hiff) as [ev Hev].
  - repeat split.
  - exists ev. split; [exact Hev|exact (Hin ev Hev)].
Defined.

(** X11.  Whatever option of whatever career event is chosen, and however
    its roll falls, fans, fame and charisma that were not negative stay
    so; the choice moves the fans by at most -10,000 and +50,000 and the
    fame by at most -50,000 and +100,000, and touches neither the money,
    nor the label, nor anything outside the player. *)
Theorem handleEventChoice_bounds
    (ev : RandomEvent) (c : EventChoice) (rnd : Q) (s : GameState) :
  0 <= fans (player s) -> 0 <= fame (player s) ->
  0 <= charisma (skills (player s)) ->
  let s' := stateAfter (handleEventChoice ev c rnd s) s in
  0 <= fans (player s') /\ 0 <= fame (player s')
  /\ 0 <= charisma (skills (player s'))
  /\ fans (player s) - 10000 <= fans (player s') <= fans (player s) + 50000
  /\ fame (player s) - 50000 <= fame (player s') <= fame (player s) + 100000
  /\ money (player s') = money (player s)
  /\ labelId (player s') = labelId (player s)
  /\ s' = withPlayer s (player s').
Proof.
  intros Hfans Hfame Hch s'. subst s'.
  destruct ev, c; cbn; split_ifs; cbn; repeat split; lia.
Qed.

Lemma handleEventChoice_bounds_witness :
  let s := initialState "Ada" "ADA" POP in
  let s' := stateAfter (handleEventChoice TwitterFeud SecondOption 0 s) s in
  0 <= fans (player s') /\ 0 <= charisma (skills (player s')).
Proof.
  intros s s'.
  destruct (handleEventChoice_bounds TwitterFeud SecondOption 0 s
              ltac:(cbn; lia) ltac:(cbn; lia) ltac:(cbn; lia))
    as (Hf & _ & Hc & _).
  split; [exact Hf|exact Hc].
Defined.

(** ** Releases *)

Lemma getFollowers_setFollowers (f : Followers) (p q : SocialPlatform) (v : Z) :
  getFollowers (setFollowers f p v) q
  = if SocialPlatform_eqb p q then v else getFollowers f q.
Proof.
  destruct p, q; reflexivity.
Qed.

Lemma SocialPlatform_eqb_eq (p q : SocialPlatform) :
  SocialPlatform_eqb p q = true <-> p = q.
Proof.
  destruct p, q; cbn; split; congruence.
Qed.

(** X12.  A release that can be paid moves the song out of the vault: the
    released list gets a copy of the song in front, with its id, title,
    quality and streams, dated today and flagged as a video exactly on
    YouTube; the vault keeps, in their order, exactly its songs with
    another id; the followers of the platform of the release grow by
    floor(fanGain * 0.2) and those of the other platforms stay.  When one
    vault song carries the id, the number of songs of the career is
    unchanged. *)
Theorem distributeSong_moves_song
    (pe : PostEnv) (thumb : Reply string) (impactReply : Reply SongImpact)
    (newsReply : Reply string) (song : Song) (platform : SocialPlatform)
    (s : GameState) :
  (inject_Z (distributionCost platform) <= money (player s))%Q ->
  let gain :=
    fanGain (calculateSongImpact impactReply (quality song) (fans (player s))) in
  let s' :=
    stateAfter (distributeSong pe thumb impactReply newsReply song platform s s) s in
  (exists released,
      songs s' = released :: songs s
      /\ song_id released = song_id song /\ title released = title song
      /\ quality released = quality song /\ streams released = streams song
      /\ releaseDate released = currentDate s
      /\ isMusicVideo released = Some (SocialPlatform_eqb platform YouTube))
  /\ unreleasedSongs s'
     = filter (fun x => negb (String.eqb (song_id x) (song_id song)))
              (unreleasedSongs s)
  /\ (forall x, In x (unreleasedSongs s')
                <-> In x (unreleasedSongs s) /\ song_id x <> song_id song)
  /\ (forall q, getFollowers (followers (player s')) q
                = if SocialPlatform_eqb platform q
                  then getFollowers (followers (player s)) q
                       + Qfloor (inject_Z gain * 0.2)%Q
                  else getFollowers (followers (player s)) q)
  /\ (List.length
        (filter (fun x => String.eqb (song_id x) (song_id song))
                (unreleasedSongs s)) = 1%nat ->
      (List.length (songs s') + List.length (unreleasedSongs s')
       = List.length (songs s) + List.length (unreleasedSongs s))%nat).
Proof.
  intros Hfunds gain s'. subst s'. unfold distributeSong.
  apply Qltb_ge in Hfunds. rewrite Hfunds.
  cbn [stateAfter songs unreleasedSongs player followers].
  split; [eexists; split; [reflexivity|]; cbn; repeat split|].
  split; [reflexivity|]. split; [|split].
  - intros x. rewrite filter_In, negb_true_iff, String.eqb_neq. reflexivity.
  - intros q. rewrite getFollowers_setFollowers.
    destruct (SocialPlatform_eqb platform q) eqn:E; [|reflexivity].
    apply SocialPlatform_eqb_eq in E. now subst q.
  - intros Hone.
    pose proof (filter_length (fun x => String.eqb (song_id x) (song_id song))
                              (unreleasedSongs s)) as L.
    cbn [List.length]. lia.
Qed.

Lemma distributeSong_moves_song_witness :
  let vaulted :=
    mkGameState (player richState) (currentDate richState) (currentWeek richState)
                [] [sampleSong 50] [] [] [] [] [] (history richState) in
  let s' :=
    stateAfter (distributeSong samplePostEnv Failed Failed Failed (sampleSong 50)
                               Spotify vaulted vaulted) vaulted in
  unreleasedSongs s' = []
  /\ (List.length (songs s') + List.length (unreleasedSongs s') = 0 + 1)%nat.
Proof.
  intros vaulted s'.
  destruct (distributeSong_moves_song samplePostEnv Failed Failed Failed
              (sampleSong 50) Spotify vaulted ltac:(discriminate))
    as (_ & Hvault & _ & _ & Hcount).
  split; [exact Hvault|exact (Hcount eq_refl)].
Defined.



(** X14.  A music video that can be paid neither adds nor removes a song:
    the released songs keep their order, ids, qualities and streams; the
    songs with the id of the video's song are flagged as videos and the
    others are left as they were; the vault is not touched; the fans grow
    by floor(fans * 0.1) + 20000, at least 20000 for fans that are not
    negative, and the fame by quality * 2000. *)
Theorem produceMusicVideo_flags_song
    (pe : PostEnv) (thumb : Reply string) (song : Song) (s : GameState) :
  (15000 <= money (player s))%Q ->
  let s' := stateAfter (produceMusicVideo pe thumb song s s) s in
  Forall2 (fun old new =>
             song_id new = song_id old /\ quality new = quality old
             /\ streams new = streams old
             /\ (song_id old = song_id song -> isMusicVideo new = Some true)
             /\ (song_id old <> song_id song -> new = old))
          (songs s) (songs s')
  /\ unreleasedSongs s' = unreleasedSongs s
  /\ fans (player s')
     = fans (player s) + Qfloor (inject_Z (fans (player s)) * 0.1)%Q + 20000
  /\ (0 <= fans (player s) -> fans (player s) + 20000 <= fans (player s'))
  /\ fame (player s') = fame (player s) + quality song * 2000
  /\ (money (player s') == money (player s) - 15000)%Q.
Proof.
  intros Hfunds s'. subst s'. unfold produceMusicVideo.
  change (inject_Z 15000) with 15000%Q.
  apply Qltb_ge in Hfunds. rewrite Hfunds.
  cbn [stateAfter songs unreleasedSongs player fans fame money].
  split; [|split; [reflexivity|split; [lia|split; [|split; reflexivity]]]].
  - induction (songs s) as [|x l IH]; cbn [map]; constructor; [|exact IH].
    destruct (String.eqb (song_id x) (song_id song)) eqn:E.
    + apply String.eqb_eq in E. cbn. repeat split; congruence.
    + apply String.eqb_neq in E. repeat split; congruence.
  - intros Hfans.
    assert (0 <= Qfloor (inject_Z (fans (player s)) * 0.1)%Q).
    { apply Qfloor_nonneg. apply inject_Z_nonneg in Hfans. lra. }
    lia.
Qed.

Lemma produceMusicVideo_flags_song_witness :
  let onAir :=
    mkGameState (player richState) (currentDate richState) (currentWeek richState)
                [sampleSong 50] [] [] [] [] [] [] (history richState) in
  let s' := stateAfter (produceMusicVideo samplePostEnv Failed (sampleSong 50)
                                          onAir onAir) onAir in
  fans (player s') = 100 + 10 + 20000
  /\ fame (player s') = 0 + 50 * 2000.
Proof.
  intros onAir s'.
  destruct (produceMusicVideo_flags_song samplePostEnv Failed (sampleSong 50) onAir
              ltac:(discriminate)) as (_ & _ & Hfans & _ & Hfame & _).
  split; [exact Hfans|exact Hfame].
Defined.

(** ** Social posts *)



Lemma trendMultiplier_range (matches : Z) :
  (1 <= trendMultiplier matches)%Q
  /\ (0 < matches -> (1.7 <= trendMultiplier matches)%Q).
Proof.
  unfold trendMultiplier.
  destruct (0 <? matches) eqn:E; [apply Z.ltb_lt in E|apply Z.ltb_ge in E].
  - assert (H : (1 <= inject_Z matches)%Q).
    { change 1%Q with (inject_Z 1). rewrite <- Zle_Qle. lia. }
    split; [lra|intros _; lra].
  - split; [lra|lia].
Qed.

Lemma trendMultiplier_monotone (a b : Z) :
  a <= b -> (trendMultiplier a <= trendMultiplier b)%Q.
Proof.
  intros H. unfold trendMultiplier.
  destruct (0 <? a) eqn:Ea; [apply Z.ltb_lt in Ea|apply Z.ltb_ge in Ea];
    destruct (0 <? b) eqn:Eb; [apply Z.ltb_lt in Eb|apply Z.ltb_ge in Eb|
                               apply Z.ltb_lt in Eb|apply Z.ltb_ge in Eb];
    try lia.
  - rewrite Zle_Qle in H. lra.
  - assert (Hb : (1 <= inject_Z b)%Q).
    { change 1%Q with (inject_Z 1). rewrite <- Zle_Qle. lia. }
    lra.
  - lra.
Qed.

Lemma Qscaled_le (base factor x y : Q) :
  (0 <= base)%Q -> (0 <= factor)%Q -> (x <= y)%Q ->
  (base * factor * x <= base * factor * y)%Q.
Proof.
  intros Hb Hf Hxy.
  assert (H : (0 <= base * factor)%Q) by now apply Qmult_le_0_compat.
  rewrite (Qmult_comm (base * factor) x), (Qmult_comm (base * factor) y).
  now apply Qmult_le_compat_r.
Qed.

(** X16.  A post never gains fewer fans for naming more trending topics:
    for fans that are not negative the gain does not decrease with the
    number of topics the text contains, a text with a topic is multiplied
    by at least 1.7, a text with none by 1, and no post loses fans. *)
Theorem postFanGain_trend_boost
    (activePlatform : SocialPlatform) (playerFans a b : Z) :
  0 <= playerFans -> a <= b ->
  postFanGain activePlatform playerFans a <= postFanGain activePlatform playerFans b
  /\ 0 <= postFanGain activePlatform playerFans a
  /\ (0 < b -> (1.7 <= trendMultiplier b)%Q)
  /\ (a <= 0 -> trendMultiplier a = 1%Q).
Proof.
  intros Hfans Hab.
  pose proof (trendMultiplier_monotone a b Hab) as Hmono.
  pose proof (trendMultiplier_range a) as [Ha _].
  pose proof (trendMultiplier_range b) as [Hb Hb'].
  apply inject_Z_nonneg in Hfans.
  split; [|split; [|split; [exact Hb'|]]].
  - unfold postFanGain.
    destruct activePlatform; apply Qfloor_resp_le; apply Qscaled_le;
      solve [lra | exact Hmono].
  - unfold postFanGain.
    destruct activePlatform; apply Qfloor_nonneg;
      (apply Qmult_le_0_compat; [apply Qmult_le_0_compat|]); lra.
  - intros Hle. unfold trendMultiplier.
    destruct (0 <? a) eqn:E; [apply Z.ltb_lt in E; lia|reflexivity].
Qed.

Lemma postFanGain_trend_boost_witness :
  postFanGain Instagram 10000 0 <= postFanGain Instagram 10000 2
  /\ 0 <= postFanGain Instagram 10000 0.
Proof.
  destruct (postFanGain_trend_boost Instagram 10000 0 2 ltac:(lia) ltac:(lia))
    as (H & H0 & _).
  split; [exact H|exact H0].
Defined.

(** X17.  Accepting a deal changes neither the fans, nor the fame, nor a
    follower count, nor a song, although the sponsored post it puts in
    front reports an impact of floor(fans * 0.02) fans and twice that
    fame; the offers with another id stay active, in their order. *)
Theorem handleAcceptDeal_frame
    (pe : PostEnv) (activePlatform : SocialPlatform) (deal : SponsoredOffer)
    (s : GameState) :
  let s' := stateAfter (handleAcceptDeal pe activePlatform deal s s) s in
  fans (player s') = fans (player s)
  /\ fame (player s') = fame (player s)
  /\ followers (player s') = followers (player s)
  /\ songs s' = songs s /\ unreleasedSongs s' = unreleasedSongs s
  /\ (exists post,
        socialPosts s' = post :: socialPosts s
        /\ platform post = activePlatform
        /\ impact_fans (impact post) = Qfloor (inject_Z (fans (player s)) * 0.02)%Q
        /\ impact_fame (impact post) = 2 * impact_fans (impact post))
  /\ activeOffers s'
     = filter (fun o => negb (String.eqb (offer_id o) (offer_id deal)))
              (activeOffers s)
  /\ (forall o, In o (activeOffers s) -> offer_id o <> offer_id deal ->
                In o (activeOffers s')).
Proof.
  intros s'. subst s'. unfold handleAcceptDeal.
  cbn [stateAfter player fans fame followers songs unreleasedSongs socialPosts
       activeOffers].
  repeat split; try reflexivity.
  - eexists. split; [reflexivity|].
    cbn [platform impact impact_fans impact_fame].
    repeat split; try reflexivity. lia.
  - intros o Hin Hid. apply filter_In. split; [exact Hin|].
    apply negb_true_iff. now apply String.eqb_neq.
Qed.

(** X18.  A teaser for a song adds floor(fans * 0.02 + 50) fans, at least
    50 for fans that are not negative, and three times as much fame; it
    grows the YouTube followers when the song is meant for YouTube and the
    Instagram followers for every other platform, by floor(gain * 0.5),
    and leaves the other follower counts and the money as they were. *)
Theorem schedulePostForSong_effect
    (pe : PostEnv) (engagementReply : Reply (list Comment)) (song : Song)
    (platform : SocialPlatform) (s : GameState) :
  let gain := Qfloor (inject_Z (fans (player s)) * 0.02 + 50)%Q in
  let target := if SocialPlatform_eqb platform YouTube then YouTube else Instagram in
  let s' := stateAfter (schedulePostForSong pe engagementReply song platform s) s in
  fans (player s') = fans (player s) + gain
  /\ fame (player s') = fame (player s) + 3 * gain
  /\ (0 <= fans (player s) -> 50 <= gain)
  /\ (forall q, getFollowers (followers (player s')) q
                = if SocialPlatform_eqb target q
                  then getFollowers (followers (player s)) q
                       + Qfloor (inject_Z gain * 0.5)%Q
                  else getFollowers (followers (player s)) q)
  /\ money (player s') = money (player s)
  /\ songs s' = songs s /\ unreleasedSongs s' = unreleasedSongs s.
Proof.
  intros gain target s'. subst s'. cbn [stateAfter schedulePostForSong].
  unfold schedulePostForSong. cbn [stateAfter player fans fame followers money
                                   songs unreleasedSongs].
  fold gain target.
  split; [reflexivity|]. split; [lia|]. split; [|split].
  - intros Hfans. subst gain.
    apply inject_Z_nonneg in Hfans.
    assert (Hx : (50 <= inject_Z (fans (player s)) * 0.02 + 50)%Q) by lra.
    exact (Qfloor_resp_le _ _ Hx).
  - intros q. rewrite getFollowers_setFollowers.
    destruct (SocialPlatform_eqb target q) eqn:E; [|reflexivity].
    apply SocialPlatform_eqb_eq in E. now subst q.
  - repeat split; reflexivity.
Qed.

Lemma schedulePostForSong_effect_witness :
  let s := initialState "Ada" "ADA" POP in
  let s' := stateAfter (schedulePostForSong samplePostEnv Failed (sampleSong 50)
                                            Spotify s) s in
  50 <= Qfloor (inject_Z (fans (player s)) * 0.02 + 50)%Q
  /\ fInstagram (followers (player s')) = 50 + 26
  /\ fSpotify (followers (player s')) = 10.
Proof.
  intros s s'.
  destruct (schedulePostForSong_effect samplePostEnv Failed (sampleSong 50)
              Spotify s) as (_ & _ & Hgain & Hfollow & _).
  split; [apply Hgain; cbn; lia|].
  split; [exact (Hfollow Instagram)|exact (Hfollow Spotify)].
Defined.

Lemma handleAcceptDeal_frame_witness :
  let s := advanceMany SAMPLE_LABELS (quietCalls 5) (initialState "Ada" "ADA" POP) in
  let s' := stateAfter (handleAcceptDeal samplePostEnv Instagram fizzOffer s s) s in
  fans (player s') = fans (player s) /\ In FALLBACK_OFFER (activeOffers s').
Proof.
  intros s s'.
  destruct (handleAcceptDeal_frame samplePostEnv Instagram fizzOffer s)
    as (Hfans & _ & _ & _ & _ & _ & _ & Hkeep).
  split; [exact Hfans|]. apply Hkeep; [now left|discriminate].
Defined.

(** ** Fall-backs of the generative service *)



Lemma append_nonempty (a b : string) : b <> EmptyString -> (a ++ b)%string <> EmptyString.
Proof.
  intros Hb. destruct a as [|c a]; cbn; [exact Hb|discriminate].
Qed.

(** X20.  The headline of a release and the lyrics of a session are never
    the empty text: an answer without text, an empty answer and a failed
    call all give the fixed fall-back, and every other answer is passed on
    as it is. *)
Theorem service_texts_never_empty (r : Reply string) (playerName : string) :
  generateIndustryNews r playerName <> EmptyString
  /\ generateSongLyrics r <> EmptyString
  /\ (forall t, t <> EmptyString ->
                generateIndustryNews (Answered t) playerName = t
                /\ generateSongLyrics (Answered t) = t).
Proof.
  assert (F : (playerName ++ " is making waves in the industry!")%string
              <> EmptyString) by (apply append_nonempty; discriminate).
  split; [|split].
  - destruct r as [t| |]; cbn; try exact F.
    destruct (String.eqb t EmptyString) eqn:E; [exact F|].
    now apply String.eqb_neq in E.
  - destruct r as [t| |]; cbn; try discriminate.
    destruct (String.eqb t EmptyString) eqn:E; [discriminate|].
    now apply String.eqb_neq in E.
  - intros t Ht. apply String.eqb_neq in Ht. cbn. now rewrite Ht.
Qed.

Lemma service_texts_never_empty_witness :
  generateIndustryNews (Answered "ADA drops a classic"%string) "ADA"
  = "ADA drops a classic"%string
  /\ generateSongLyrics (Answered EmptyString) <> EmptyString.
Proof.
  destruct (service_texts_never_empty (Answered EmptyString) "ADA") as (_ & L & P).
  split; [exact (proj1 (P "ADA drops a classic"%string ltac:(discriminate)))|exact L].
Defined.

(** ** Offers *)

Lemma filter_other_ids (l : list SponsoredOffer) (i : string) :
  ~ In i (map offer_id l) ->
  filter (fun o => negb (String.eqb (offer_id o) i)) l = l.
Proof.
  induction l as [|o l IH]; intros H; cbn; [reflexivity|].
  cbn in H. destruct (String.eqb (offer_id o) i) eqn:E.
  - apply String.eqb_eq in E. exfalso. apply H. now left.
  - cbn. rewrite IH; [reflexivity|]. intros Hin. apply H. now right.
Qed.

(** X21.  An offer granted at a rollover and accepted at once leaves the
    active offers as they were before the rollover, when fewer than three
    were active and none carried the id of the new offer. *)
Theorem offer_granted_then_accepted
    (LABELS : list Label) (pendingAwards : option (list Award)) (e : AdvanceEnv)
    (pe : PostEnv) (activePlatform : SocialPlatform) (s : GameState) :
  let offer := generateSponsoredOffer (offerReply e) (offerRid e) in
  let next := nextState (advanceTime LABELS pendingAwards e s) in
  let after := stateAfter (handleAcceptDeal pe activePlatform offer next next) next in
  rollsOver s = true -> (offerGate e < 0.6)%Q ->
  (List.length (activeOffers s) < 3)%nat ->
  ~ In (offer_id offer) (map offer_id (activeOffers s)) ->
  activeOffers next = offer :: activeOffers s
  /\ activeOffers after = activeOffers s
  /\ (money (player after) == money (player next) + payout offer)%Q.
Proof.
  intros offer next after Hroll Hgate Hlen Hfresh.
  assert (E : activeOffers next = offer :: activeOffers s).
  { subst next. rewrite advanceTime_activeOffers, Hroll.
    apply Qltb_lt in Hgate. rewrite Hgate. cbn [andb]. unfold slice0.
    apply firstn_all2. cbn [List.length]. lia. }
  split; [exact E|]. subst after. unfold handleAcceptDeal.
  cbn [stateAfter activeOffers player money]. rewrite E. cbn [filter].
  rewrite String.eqb_refl. cbn [negb].
  split; [now apply filter_other_ids|reflexivity].
Qed.

Lemma offer_granted_then_accepted_witness :
  let s := advanceMany SAMPLE_LABELS (quietCalls 8) (initialState "Ada" "ADA" POP) in
  let offer := generateSponsoredOffer (Answered fizzOffer) "r17" in
  let next := nextState (advanceTime SAMPLE_LABELS None fizzEnv s) in
  activeOffers s = [FALLBACK_OFFER]
  /\ activeOffers next = [offer; FALLBACK_OFFER]
  /\ activeOffers
       (stateAfter (handleAcceptDeal samplePostEnv Instagram offer next next) next)
     = [FALLBACK_OFFER].
Proof.
  intros s offer next.
  destruct (offer_granted_then_accepted SAMPLE_LABELS None fizzEnv samplePostEnv
              Instagram s eq_refl eq_refl) as (Hnext & Hafter & _).
  - cbn. lia.
  - cbn. intros [H|[]]. discriminate H.
  - split; [reflexivity|]. split; [exact Hnext|exact Hafter].
Defined.

(** X22.  Fan messages: a post whose impact is at most 1000 fans, a draw
    of 0.3 or more, or a service that does not answer never opens a fan
    message; with a larger impact and a smaller draw the message is the
    service's answer.  The gain of a music video always passes the
    threshold for fans that are not negative, and the gain of a teaser
    never does below 47,550 fans. *)
Theorem checkFanInteraction_threshold
    (impact : Z) (rnd : Q) (reply : Reply FanInteraction) (playerFans : Z) :
  (impact <= 1000 -> checkFanInteraction impact rnd reply = None)
  /\ ((0.3 <= rnd)%Q -> checkFanInteraction impact rnd reply = None)
  /\ ((forall i, reply <> Answered i) -> checkFanInteraction impact rnd reply = None)
  /\ (forall i, 1000 < impact -> (rnd < 0.3)%Q ->
                checkFanInteraction impact rnd (Answered i) = Some i)
  /\ (0 <= playerFans -> 1000 < Qfloor (inject_Z playerFans * 0.1)%Q + 20000)
  /\ (0 <= playerFans < 47550 ->
      checkFanInteraction (Qfloor (inject_Z playerFans * 0.02 + 50)%Q) rnd reply
      = None).
Proof.
  assert (Hlow : forall x, x <= 1000 -> checkFanInteraction x rnd reply = None).
  { intros x H. unfold checkFanInteraction.
    rewrite (gtb_false _ _ H). reflexivity. }
  split; [apply Hlow|]. split; [|split; [|split; [|split]]].
  - intros H. unfold checkFanInteraction. apply Qltb_ge in H. rewrite H.
    now rewrite andb_false_r.
  - intros H. unfold checkFanInteraction.
    destruct reply as [i| |]; [now destruct (H i)| |];
      destruct (_ && _); reflexivity.
  - intros i Hi Hr. unfold checkFanInteraction.
    rewrite (gtb_true _ _ Hi). apply Qltb_lt in Hr. rewrite Hr. reflexivity.
  - intros H.
    assert (0 <= Qfloor (inject_Z playerFans * 0.1)%Q).
    { apply Qfloor_nonneg. apply inject_Z_nonneg in H. lra. }
    lia.
  - intros [H0 H1]. apply Hlow.
    destruct (Qfloor_bounds 50 1001 (inject_Z playerFans * 0.02 + 50)%Q) as [_ U];
      [| |lia].
    + apply inject_Z_nonneg in H0. change (inject_Z 50) with 50%Q. lra.
    + rewrite Zlt_Qlt in H1. change (inject_Z 47550) with 47550%Q in H1.
      change (inject_Z 1001) with 1001%Q. lra.
Qed.

Lemma checkFanInteraction_threshold_witness :
  checkFanInteraction 900 0 Failed = None
  /\ 1000 < Qfloor (inject_Z 100 * 0.1)%Q + 20000
  /\ checkFanInteraction (Qfloor (inject_Z 100 * 0.02 + 50)%Q) 0 Failed = None.
Proof.
  destruct (checkFanInteraction_threshold 900 0 Failed 100)
    as (Hlow & _ & _ & _ & Hvideo & Hteaser).
  split; [apply Hlow; lia|]. split; [apply Hvideo; lia|apply Hteaser; lia].
Defined.

(** ** The compact variant: vault, labels and releases *)

(** X23.  In the compact variant, a song idea saved as a draft and then
    mastered under the same title leaves one song of that title in the
    vault, the mastered one, in front; the draft is gone, and so is every
    other vault song of that title, while the songs with other titles stay
    in their order.  The released songs are not touched. *)
Theorem compact_master_replaces_draft
    (draftForm : DraftForm) (activeLyrics rid1 rid2 : string)
    (miniGameScore : list Q) (rnd : Q) (s : GameState) :
  miniGameScore <> [] ->
  let drafted :=
    stateAfter (Compact.saveToVaultDraft draftForm activeLyrics rid1 s s) s in
  (exists draft,
      unreleasedSongs drafted = draft :: unreleasedSongs s
      /\ quality draft = 0 /\ isMastered draft = Some false
      /\ title draft = df_title draftForm)
  /\ exists mastered s2,
       Compact.saveToVault draftForm miniGameScore activeLyrics rid2 rnd
                           drafted drafted = Some (Committed s2)
       /\ unreleasedSongs s2
          = mastered
            :: filter (fun x => negb (String.eqb (title x) (df_title draftForm)))
                      (unreleasedSongs s)
       /\ title mastered = df_title draftForm
       /\ isMastered mastered = Some true
       /\ song_id mastered = rid2
       /\ (forall x, In x (unreleasedSongs s2) ->
                     title x = df_title draftForm -> x = mastered)
       /\ songs s2 = songs s.
Proof.
  intros Hne drafted. split.
  - eexists. split; [reflexivity|]. repeat split.
  - subst drafted. unfold Compact.saveToVault.
    destruct miniGameScore as [|x l]; [contradiction|].
    eexists. eexists. split; [reflexivity|].
    cbn [unreleasedSongs songs stateAfter Compact.saveToVaultDraft filter title].
    rewrite String.eqb_refl. cbn [negb].
    split; [reflexivity|]. repeat split.
    intros y [Hy|Hy] Ht; [now symmetry|].
    apply filter_In in Hy. destruct Hy as [_ Hy].
    apply negb_true_iff, String.eqb_neq in Hy. contradiction.
Qed.

Lemma compact_master_replaces_draft_witness :
  let form := mkDraftForm "Demo" POP EmptyString false in
  let s := initialState "Ada" "ADA" POP in
  let drafted := stateAfter (Compact.saveToVaultDraft form "la" "d1" s s) s in
  exists mastered s2,
    Compact.saveToVault form [80; 90]%Q "la" "m1" 0 drafted drafted
    = Some (Committed s2)
    /\ unreleasedSongs s2 = [mastered]
    /\ isMastered mastered = Some true.
Proof.
  intros form s drafted.
  destruct (compact_master_replaces_draft form "la" "d1" "m1" [80; 90]%Q 0 s
              ltac:(discriminate))
    as (_ & mastered & s2 & Hout & Hvault & _ & Hm & _).
  exists mastered, s2. split; [exact Hout|]. split; [exact Hvault|exact Hm].
Defined.

(** X24.  In the compact variant a label can be signed only with the fame
    it requires and only when the player is not signed to it: otherwise
    nothing happens.  Signing credits exactly the signing bonus, switches
    the label and changes nothing else; from then on a settlement pays the
    share revenueSplit/100 of that label, when the table finds it under
    its id with a non-zero split. *)
Theorem compact_signLabel_effect
    (LABELS : list Label) (label : Label) (s : GameState) :
  let out := Compact.signLabel label s s in
  (fame (player s) < fameRequirement label -> out = Ignored)
  /\ (labelId (player s) = Some (label_id label) -> out = Ignored)
  /\ (fameRequirement label <= fame (player s) ->
      labelId (player s) <> Some (label_id label) ->
      exists s',
        out = Committed s'
        /\ (money (player s') == money (player s) + signingBonus label)%Q
        /\ labelId (player s') = Some (label_id label)
        /\ fans (player s') = fans (player s)
        /\ fame (player s') = fame (player s)
        /\ skills (player s') = skills (player s)
        /\ s' = withPlayer s (player s')
        /\ (findLabel LABELS (Some (label_id label)) = Some label ->
            revenueSplit label <> 0 ->
            (labelShare LABELS (labelId (player s'))
             == inject_Z (revenueSplit label) / 100)%Q)).
Proof.
  intros out. subst out. unfold Compact.signLabel, Compact.signable.
  split; [|split].
  - intros H. apply Z.leb_gt in H. rewrite H. reflexivity.
  - intros H. rewrite H, String.eqb_refl, orb_true_r. reflexivity.
  - intros Hfame Hother. apply Z.leb_le in Hfame. rewrite Hfame. cbn [negb orb].
    assert (E : match labelId (player s) with
                | Some i => String.eqb i (label_id label)
                | None => false
                end = false).
    { destruct (labelId (player s)) as [i|]; [|reflexivity].
      apply String.eqb_neq. congruence. }
    rewrite E. cbn [negb]. eexists. split; [reflexivity|]. cbn.
    repeat split; try reflexivity.
    intros Hfind Hsplit. now apply labelShare_found.
Qed.

Lemma compact_signLabel_effect_witness :
  let major := mkLabel "major" "Major" 3 0 50000 70 EmptyString EmptyString in
  let s := initialState "Ada" "ADA" POP in
  exists s',
    Compact.signLabel major s s = Committed s'
    /\ (money (player s') == 5000 + 50000)%Q
    /\ (labelShare [SELF_RELEASED; major] (labelId (player s')) == 70 / 100)%Q.
Proof.
  intros major s.
  destruct (compact_signLabel_effect [SELF_RELEASED; major] major s)
    as (_ & _ & H).
  destruct H as (s' & Hout & Hmoney & _ & _ & _ & _ & _ & Hshare);
    [cbn; lia|discriminate|].
  exists s'. split; [exact Hout|]. split; [exact Hmoney|].
  apply Hshare; [reflexivity|discriminate].
Defined.

(** X25.  In the compact variant a release costs nothing and earns the
    same on every platform: the fans grow by the estimated gain, and the
    money, the fame and the followers stay; the platform only decides
    whether the released copy is flagged as a video.  A post adds
    floor(fans * 0.01 + 10) fans and followers of its platform and no fame,
    although the post reports twice that gain as fame. *)
Theorem compact_release_and_post
    (pe : PostEnv) (impactReply : Reply SongImpact)
    (engagementReply : Reply (list Comment)) (song : Song)
    (platform other : SocialPlatform) (postDraft : PostDraft) (s : GameState) :
  let released := stateAfter (Compact.distributeSong impactReply song platform s s) s in
  let elsewhere := stateAfter (Compact.distributeSong impactReply song other s s) s in
  let posted :=
    stateAfter (Compact.handlePostSocial pe engagementReply platform postDraft s s) s in
  let gain := Qfloor (inject_Z (fans (player s)) * 0.01 + 10)%Q in
  player released = player elsewhere
  /\ fans (player released)
     = fans (player s)
       + fanGain (calculateSongImpact impactReply (quality song) (fans (player s)))
  /\ money (player released) = money (player s)
  /\ fame (player released) = fame (player s)
  /\ followers (player released) = followers (player s)
  /\ (exists copy, songs released = copy :: songs s
                   /\ isMusicVideo copy = Some (SocialPlatform_eqb platform YouTube))
  /\ fans (player posted) = fans (player s) + gain
  /\ fame (player posted) = fame (player s)
  /\ getFollowers (followers (player posted)) platform
     = getFollowers (followers (player s)) platform + gain
  /\ (exists post, socialPosts posted = post :: socialPosts s
                   /\ impact_fame (impact post) = gain * 2).
Proof.
  intros released elsewhere posted gain.
  subst released elsewhere posted.
  unfold Compact.distributeSong, Compact.handlePostSocial.
  cbn [stateAfter player songs socialPosts fans fame money followers withFans].
  fold gain.
  repeat split; try reflexivity.
  - eexists. split; reflexivity.
  - rewrite getFollowers_setFollowers.
    destruct platform; reflexivity.
  - eexists. split; reflexivity.
Qed.

(** ** What no handler does *)

Lemma Forall2_same {A : Type} (P : A -> A -> Prop) (l : list A) :
  (forall x, P x x) -> Forall2 P l l.
Proof.
  intros H. induction l; constructor; auto.
Qed.

Lemma Forall2_map_r {A B : Type} (P : A -> B -> Prop) (f : A -> B) (l : list A) :
  (forall x, P x (f x)) -> Forall2 P l (map f l).
Proof.
  intros H. induction l; cbn; constructor; auto.
Qed.

(** X26.  No handler removes or reorders a released song or takes a
    stream from it: after any step the released list is the old one, song
    for song with the same id and quality and no fewer streams, with at
    most one new song in front. *)
Theorem released_songs_are_kept
    (LABELS : list Label) (REAL_ARTISTS_DATA : list RealArtist) (s s' : GameState) :
  step LABELS REAL_ARTISTS_DATA s s' ->
  exists front rest,
    songs s' = front ++ rest
    /\ (List.length front <= 1)%nat
    /\ Forall2 (fun old new =>
                  song_id new = song_id old /\ quality new = quality old
                  /\ streams old <= streams new)
               (songs s) rest.
Proof.
  assert (Same : forall l : list Song,
            Forall2 (fun old new =>
                       song_id new = song_id old /\ quality new = quality old
                       /\ streams old <= streams new) l l).
  { intros l. apply Forall2_same. intros x. repeat split; lia. }
  assert (Keep : forall t : GameState,
            songs t = songs s ->
            exists front rest,
              songs t = front ++ rest /\ (List.length front <= 1)%nat
              /\ Forall2 (fun old new =>
                            song_id new = song_id old /\ quality new = quality old
                            /\ streams old <= streams new) (songs s) rest).
  { intros t E. exists [], (songs s). rewrite E. cbn. repeat split; auto. }
  intros St. destruct St.
  - exists [], (songs (nextState (advanceTime LABELS pendingAwards e s))).
    split; [reflexivity|]. split; [cbn; lia|].
    rewrite advanceTime_songs.
    eapply Forall2_impl; [|apply updateSongs_earn].
    cbn. intros old new (Hid & _ & Hq & Hs & _). repeat split; auto; lia.
  - apply Keep. reflexivity.
  - apply Keep. unfold handleFanResponse. destruct (bonusType o); reflexivity.
  - apply Keep. unfold startRecording. split_ifs; reflexivity.
  - apply Keep. unfold saveToVault in H.
    destruct (negb _); [injection H as <-; reflexivity|].
    destruct miniGameScore; [discriminate|]. injection H as <-. reflexivity.
  - unfold produceMusicVideo.
    destruct (Qltb _ _); [apply Keep; reflexivity|].
    cbn [stateAfter songs]. eexists [], _. split; [reflexivity|].
    split; [cbn; lia|].
    apply Forall2_map_r. intros x.
    destruct (String.eqb (song_id x) (song_id song)); cbn; repeat split; lia.
  - unfold distributeSong.
    destruct (Qltb _ _); [apply Keep; reflexivity|].
    cbn [stateAfter songs]. eexists [_], (songs s).
    split; [reflexivity|]. split; [cbn; lia|apply Same].
  - apply Keep. unfold handlePostSocial. split_ifs; try reflexivity.
    all: destruct activePlatform; reflexivity.
  - apply Keep. reflexivity.
  - apply Keep. reflexivity.
Qed.

Lemma released_songs_are_kept_witness :
  exists front rest,
    songs (nextState (advanceTime SAMPLE_LABELS None quietEnv decemberState))
    = front ++ rest
    /\ (List.length front <= 1)%nat
    /\ Forall2 (fun old new =>
                  song_id new = song_id old /\ quality new = quality old
                  /\ streams old <= streams new)
               (songs decemberState) rest.
Proof.
  apply (released_songs_are_kept SAMPLE_LABELS [] decemberState). constructor.
Defined.

(** ** The two variants *)

(** X27.  On a state whose month is between 0 and 11, the two variants of
    [advanceTime] leave the same week, date, songs, fans, trending topics,
    active offers and chart; they differ in the followers, which only the
    full variant grows, and in the artist award: with a fame of at most
    5,000,000 they also leave the same awards, fame and money. *)
Theorem variants_advance_alike
    (LABELS : list Label) (pendingAwards : option (list Award))
    (e : AdvanceEnv) (prev : GameState) :
  0 <= getMonth (currentDate prev) <= 11 ->
  let full := nextState (advanceTime LABELS pendingAwards e prev) in
  let compact := nextState (Compact.advanceTime LABELS e prev) in
  currentWeek compact = currentWeek full
  /\ currentDate compact = currentDate full
  /\ songs compact = songs full
  /\ fans (player compact) = fans (player full)
  /\ trendingTopics compact = trendingTopics full
  /\ activeOffers compact = activeOffers full
  /\ history compact = history full
  /\ followers (player compact) = followers (player prev)
  /\ (fame (player prev) <= 5000000 ->
      awards compact = awards full
      /\ fame (player compact) = fame (player full)
      /\ money (player compact) = money (player full)).
Proof.
  intros Hmonth full compact. subst full compact.
  assert (Hjan : (getMonth (nextMonth (currentDate prev)) =? 0)
                 = (getMonth (currentDate prev) =? 11)).
  { unfold nextMonth.
    destruct (getMonth (currentDate prev) + 1 >? 11) eqn:E;
      rewrite Z.gtb_ltb in E; [apply Z.ltb_lt in E|apply Z.ltb_ge in E];
      cbn [getMonth];
      destruct (Z.eqb_spec (getMonth (currentDate prev)) 11) as [F|F];
      match goal with
      | |- (?m =? 0) = _ => destruct (Z.eqb_spec m 0) as [G|G]
      end; try reflexivity; lia. }
  assert (Hwon : fame (player prev) <= 5000000 ->
                 runAwardsSeason (awardSfx1 e) (awardSfx2 e) prev
                 = Compact.runAwardsSeason (awardSfx1 e) prev).
  { intros Hfame. unfold runAwardsSeason, Compact.runAwardsSeason.
    rewrite (gtb_false _ _ Hfame). reflexivity. }
  unfold advanceTime, Compact.advanceTime. rewrite Hjan.
  destruct (currentWeek prev + 1 >? 4).
  - destruct (getMonth (currentDate prev) =? 11).
    + cbn [andb nextState currentWeek currentDate songs player fans
           trendingTopics activeOffers history followers awards fame money
           withFans withFollowers withMoney withFame].
      repeat split; try reflexivity.
      * destruct (0 <? _); destruct (0 <? _); reflexivity.
      * destruct (0 <? _); destruct (0 <? _); reflexivity.
      * destruct (0 <? _); reflexivity.
      * rewrite (Hwon H). reflexivity.
      * rewrite (Hwon H). destruct (0 <? _); reflexivity.
      * rewrite (Hwon H). destruct (0 <? _); reflexivity.
    + cbn. repeat split; reflexivity.
  - cbn. repeat split; reflexivity.
Qed.

Lemma variants_advance_alike_witness :
  let full := nextState (advanceTime SAMPLE_LABELS None quietEnv decemberState) in
  let compact := nextState (Compact.advanceTime SAMPLE_LABELS quietEnv decemberState) in
  songs compact = songs full /\ awards compact = awards full
  /\ money (player compact) = money (player full).
Proof.
  intros full compact.
  destruct (variants_advance_alike SAMPLE_LABELS None quietEnv decemberState
              ltac:(cbn; lia)) as (_ & _ & Hsongs & _ & _ & _ & _ & _ & Hawards).
  destruct (Hawards ltac:(cbn; lia)) as (Ha & _ & Hm).
  split; [exact Hsongs|]. split; [exact Ha|exact Hm].
Defined.

(** ** Growth *)

Lemma Qfloor_grow (x : Z) (c : Q) :
  0 <= x -> (1 <= c)%Q -> x <= Qfloor (inject_Z x * c)%Q.
Proof.
  intros Hx Hc. rewrite <- (Qfloor_Z x) at 1. apply Qfloor_resp_le.
  apply inject_Z_nonneg in Hx. nra.
Qed.

(** X28.  A call of [advanceTime] never shrinks an audience that is not
    negative: the fans and each follower count are at least what they
    were, and a settlement adds at least as many fans as a plain week
    would have. *)
Theorem advanceTime_audience_grows
    (LABELS : list Label) (pendingAwards : option (list Award))
    (e : AdvanceEnv) (prev : GameState) :
  0 <= fans (player prev) ->
  (forall q, 0 <= getFollowers (followers (player prev)) q) ->
  let next := nextState (advanceTime LABELS pendingAwards e prev) in
  fans (player prev) <= fans (player next)
  /\ (forall q, getFollowers (followers (player prev)) q
                <= getFollowers (followers (player next)) q)
  /\ Qfloor (inject_Z (fans (player prev)) * 0.01)%Q
     <= fans (player next) - fans (player prev).
Proof.
  intros Hfans Hfol next. subst next.
  pose proof (inject_Z_nonneg _ Hfans) as Hq.
  assert (H1 : 0 <= Qfloor (inject_Z (fans (player prev)) * 0.01)%Q)
    by (apply Qfloor_nonneg; lra).
  assert (H5 : Qfloor (inject_Z (fans (player prev)) * 0.01)%Q
               <= Qfloor (inject_Z (fans (player prev)) * 0.05)%Q)
    by (apply Qfloor_resp_le; lra).
  split; [|split].
  - rewrite advanceTime_fans. destruct (rollsOver prev); lia.
  - intros q. pose proof (Hfol Instagram) as Hi. pose proof (Hfol TikTok) as Ht.
    pose proof (Hfol YouTube) as Hy. pose proof (Hfol Spotify) as Hs.
    pose proof (Hfol AppleMusic) as Ha. cbn [getFollowers] in Hi, Ht, Hy, Hs, Ha.
    unfold advanceTime. destruct (currentWeek prev + 1 >? 4).
    + destruct (getMonth (currentDate prev) =? 11); cbn [andb];
        [destruct (0 <? _)|];
        cbn [nextState player followers withFollowers withFans withMoney withFame];
        destruct q; cbn [getFollowers fInstagram fTikTok fYouTube fSpotify
                         fAppleMusic];
        apply Qfloor_grow; solve [assumption | discriminate].
    + cbn [nextState player followers withFollowers withFans].
      destruct q; cbn [getFollowers fInstagram fTikTok fYouTube fSpotify
                       fAppleMusic];
        try lia; apply Qfloor_grow; solve [assumption | discriminate].
  - rewrite advanceTime_fans. destruct (rollsOver prev); lia.
Qed.

Lemma advanceTime_audience_grows_witness :
  let s := initialState "Ada" "ADA" POP in
  fans (player s)
  <= fans (player (nextState (advanceTime SAMPLE_LABELS None quietEnv s))).
Proof.
  intros s.
  refine (proj1 (advanceTime_audience_grows SAMPLE_LABELS None quietEnv s _ _)).
  - cbn. lia.
  - intros q. destruct q; cbn; lia.
Defined.
